(** * MainRecommender (src/recommenders.py): a shallow embedding

    The class wraps the [implicit] recommendation library.  Its own logic
    is the bookkeeping around the library calls: the four id tables, the
    popularity lists, the padding of short results and the length
    assertion.  The library (training, [recommend], [rank_items],
    [similar_items], [similar_users], [bm25_weight]) is taken as a record
    of functions that may raise; everything else is translated from the
    source, method by method. *)

From Stdlib Require Import ZArith List Lia.
From stdpp Require Import base option list sorting gmap strings pretty fin_maps.

Open Scope Z_scope.

(** ** Python values used by the class *)

(** Exceptions the methods can end with.  [LibraryError] stands for
    whatever the external library raises. *)
Inductive exn :=
  | AssertionError
  | KeyError
  | ValueError
  | AttributeError
  | LibraryError.

Inductive res (A : Type) :=
  | Ok (a : A)
  | Raise (e : exn).
Arguments Ok {A} a.
Arguments Raise {A} e.

#[global] Instance exn_eq_dec : EqDecision exn.
Proof. solve_decision. Defined.

(** Dictionary keys.  The tables of the class are keyed by integers; the
    one lookup with a string key is [str(rec[0])] in
    [get_similar_users_recommendation].  In Python an [int] key and a
    [str] key are never equal. *)
Inductive pykey :=
  | KInt (i : Z)
  | KStr (s : string).

#[global] Instance pykey_eq_dec : EqDecision pykey.
Proof. solve_decision. Defined.

#[global] Instance pykey_countable : Countable pykey.
Proof.
  refine (inj_countable'
    (λ k, match k with KInt i => inl i | KStr s => inr s end)
    (λ x, match x with inl i => KInt i | inr s => KStr s end) _).
  by intros [].
Defined.

(** [str(i)] for an integer. *)
Definition str (i : Z) : string := pretty i.

(** A finite float, [mant * 2^expo].  The class only carries scores and
    matrix cells around; it never computes with them. *)
Record float := { mant : Z; expo : Z }.

Definition float_of_count (c : Z) : float := {| mant := c; expo := 0 |}.

(** [len(l)] *)
Definition len {A} (l : list A) : Z := Z.of_nat (length l).

(** [l[:n]] and [df.head(n)]: a negative [n] drops the last [-n] entries. *)
Definition slice_to {A} (l : list A) (n : Z) : list A :=
  if n <? 0 then firstn (Z.to_nat (len l + n)) l
  else firstn (Z.to_nat n) l.

(** [l[1:]] *)
Definition slice_from1 {A} (l : list A) : list A := tl l.

(** [d[k]]: a missing key raises [KeyError]. *)
Definition getitem (d : gmap pykey Z) (k : pykey) : res Z :=
  match d !! k with
  | Some v => Ok v
  | None => Raise KeyError
  end.

(** [max(l)]: an empty list raises [ValueError]. *)
Definition py_max (l : list Z) : res Z :=
  match l with
  | [] => Raise ValueError
  | x :: l' => Ok (foldl Z.max x l')
  end.

(** [list(d.values())] *)
Definition dict_values (d : gmap pykey Z) : list Z := (map_to_list d).*2.

(** [dict(zip(ks, vs))]: later pairs overwrite earlier ones. *)
Definition dict_zip (ks : list pykey) (vs : list Z) : gmap pykey Z :=
  foldl (λ d kv, <[kv.1 := kv.2]> d) ∅ (zip ks vs).

(** [np.arange(n)] *)
Definition arange (n : nat) : list Z := Z.of_nat <$> seq 0 n.

(** ** The transaction table and the pandas operations of [__init__] *)

Record interaction := { user_id : Z; item_id : Z; quantity : Z }.

(** The sentinel id of the "unknown item". *)
Definition unknown_item : Z := 999999.

(** Sorted distinct values of a column: group keys of [groupby], labels of
    a pivot table. *)
Definition sorted_unique (l : list Z) : list Z :=
  merge_sort Z.le (remove_dups l).

Definition count_if {A} (p : A → bool) (l : list A) : Z := len (filter p l).

(** One row of [groupby(['user_id', 'item_id'])['quantity'].count()
    .reset_index()]. *)
Record purchase := { p_user : Z; p_item : Z; p_quantity : Z }.

Definition same_pair (u i : Z) (r : interaction) : bool :=
  bool_decide (user_id r = u) && bool_decide (item_id r = i).

(** Groups come out in key order; only pairs that occur form a group. *)
Definition groupby_user_item_count (data : list interaction) : list purchase :=
  u ← sorted_unique (user_id <$> data);
  i ← sorted_unique (item_id <$> data);
  let c := count_if (same_pair u i) data in
  if 0 <? c then [ {| p_user := u; p_item := i; p_quantity := c |} ] else [].

(** [groupby('item_id')['quantity'].count().reset_index()] as
    (item_id, quantity) rows. *)
Definition groupby_item_count (data : list interaction) : list (Z * Z) :=
  (λ i, (i, count_if (λ r, bool_decide (item_id r = i)) data))
    <$> sorted_unique (item_id <$> data).

(** [sort_values('quantity', ascending=False)].  Rows of equal quantity
    come out in the order the merge sort gives them, which need not be
    the order of pandas' sort; what is proved below holds for any order
    among them, and the example data have no tie between rows that are
    kept. *)
Definition desc_by {A} (qty : A → Z) : relation A := λ a b, qty b ≤ qty a.

#[global] Instance desc_by_dec {A} (qty : A → Z) : RelDecision (desc_by qty).
Proof. intros a b. unfold desc_by. apply _. Defined.

Definition sort_values_desc {A} (qty : A → Z) (rows : list A) : list A :=
  merge_sort (desc_by qty) rows.

(** The pivot table of [_prepare_matrix]. *)
Record DataFrame := {
  index : list Z;
  columns : list Z;
  values : list (list float)
}.

Definition _prepare_matrix (data : list interaction) : DataFrame :=
  let users := sorted_unique (user_id <$> data) in
  let items := sorted_unique (item_id <$> data) in
  {| index := users;
     columns := items;
     values :=
       (λ u, (λ i, float_of_count (count_if (same_pair u i) data)) <$> items)
         <$> users |}.

(** [user_item_matrix] holds the pivot table, or after weighting the bare
    array returned by [bm25_weight]. *)
Inductive matrix :=
  | Frame (df : DataFrame)
  | Array (cells : list (list float)).

(** [csr_matrix(m)]: the cells without labels. *)
Definition csr_matrix (m : matrix) : list (list float) :=
  match m with
  | Frame df => values df
  | Array cells => cells
  end.

Fixpoint transpose {A} (rows : list (list A)) : list (list A) :=
  match rows with
  | [] => []
  | [r] => (λ x, [x]) <$> r
  | r :: rest => zip_with cons r (transpose rest)
  end.

(** [_prepare_dicts]: returns
    [(id_to_itemid, id_to_userid, itemid_to_id, userid_to_id)]. *)
Definition _prepare_dicts (user_item_matrix : DataFrame)
  : gmap pykey Z * gmap pykey Z * gmap pykey Z * gmap pykey Z :=
  let userids := index user_item_matrix in
  let itemids := columns user_item_matrix in
  let matrix_userids := arange (length userids) in
  let matrix_itemids := arange (length itemids) in
  let id_to_itemid := dict_zip (KInt <$> matrix_itemids) itemids in
  let id_to_userid := dict_zip (KInt <$> matrix_userids) userids in
  let itemid_to_id := dict_zip (KInt <$> itemids) matrix_itemids in
  let userid_to_id := dict_zip (KInt <$> userids) matrix_userids in
  (id_to_itemid, id_to_userid, itemid_to_id, userid_to_id).

(** ** The external library *)

(** A fitted model of [implicit], as the class uses it.  [recommend] and
    [rank_items] return the pair (ids, scores); [similar_items] and
    [similar_users] return what the class iterates over as records whose
    first component is an internal index. *)
Record Model := {
  (** [recommend(userid, user_items, N, filter_already_liked_items,
      filter_items, recalculate_user)] *)
  recommend : Z → list (list float) → Z → bool → list Z → bool
              → res (list Z * list float);
  (** [rank_items(userid, user_items, selected_items, recalculate_user)] *)
  rank_items : Z → list (list float) → list Z → bool
               → res (list Z * list float);
  (** [similar_items(itemid, N)] *)
  similar_items : Z → Z → res (list (Z * float));
  (** [similar_users(userid, N)] *)
  similar_users : Z → Z → res (list (Z * float))
}.

(** The names imported from [implicit]: each recommender class is taken
    with its constructor arguments fixed as in the source, as the function
    from the training matrix to the fitted model. *)
Record implicit := {
  bm25_weight : list (list float) → res (list (list float));
  AlternatingLeastSquares : list (list float) → res Model;
  ItemItemRecommender : list (list float) → res Model;
  BM25Recommender : list (list float) → res Model;
  TFIDFRecommender : list (list float) → res Model;
  CosineRecommender : list (list float) → res Model
}.

(** ** The instance *)

(** The attributes of a [MainRecommender].  The attributes that hold
    fitted models are kept by name, as in the instance dictionary, so that
    reading one that was never assigned raises [AttributeError]. *)
Record MainRecommender := {
  top_purchases : list purchase;
  overall_top_purchases : list Z;
  user_item_matrix : matrix;
  id_to_itemid : gmap pykey Z;
  id_to_userid : gmap pykey Z;
  itemid_to_id : gmap pykey Z;
  userid_to_id : gmap pykey Z;
  model_attrs : gmap string Model
}.

Definition set_userid_to_id (d : gmap pykey Z) (self : MainRecommender) :=
  {| top_purchases := top_purchases self;
     overall_top_purchases := overall_top_purchases self;
     user_item_matrix := user_item_matrix self;
     id_to_itemid := id_to_itemid self;
     id_to_userid := id_to_userid self;
     itemid_to_id := itemid_to_id self;
     userid_to_id := d;
     model_attrs := model_attrs self |}.

Definition set_id_to_userid (d : gmap pykey Z) (self : MainRecommender) :=
  {| top_purchases := top_purchases self;
     overall_top_purchases := overall_top_purchases self;
     user_item_matrix := user_item_matrix self;
     id_to_itemid := id_to_itemid self;
     id_to_userid := d;
     itemid_to_id := itemid_to_id self;
     userid_to_id := userid_to_id self;
     model_attrs := model_attrs self |}.

(** ** Methods run in a state-and-exception monad: a method takes the
    instance and returns the instance as it left it together with its
    value or the exception it raised.  A mutation made before an exception
    stays. *)
Definition M (A : Type) : Type := MainRecommender → MainRecommender * res A.

Definition ret {A} (a : A) : M A := λ self, (self, Ok a).

Definition bind {A B} (c : M A) (k : A → M B) : M B := λ self,
  match c self with
  | (self', Ok a) => k a self'
  | (self', Raise e) => (self', Raise e)
  end.

Definition raise {A} (e : exn) : M A := λ self, (self, Raise e).

Definition lift {A} (r : res A) : M A := λ self, (self, r).

Definition get_self : M MainRecommender := λ self, (self, Ok self).

Definition modify (f : MainRecommender → MainRecommender) : M unit :=
  λ self, (f self, Ok tt).

#[global] Instance M_ret : MRet M := @ret.
#[global] Instance M_bind : MBind M := λ A B k c, bind c k.

(** Exceptions in pure code. *)
Definition res_bind {A B} (r : res A) (k : A → res B) : res B :=
  match r with
  | Ok a => k a
  | Raise e => Raise e
  end.

(** A list comprehension whose element expression may raise: the first
    exception ends it. *)
Fixpoint res_map {A B} (f : A → res B) (l : list A) : res (list B) :=
  match l with
  | [] => Ok []
  | x :: l' =>
      res_bind (f x) (λ y, res_bind (res_map f l') (λ ys, Ok (y :: ys)))
  end.

(** [self.<name>] for an attribute holding a model. *)
Definition getattr (name : string) : M Model := λ self,
  match model_attrs self !! name with
  | Some m => (self, Ok m)
  | None => (self, Raise AttributeError)
  end.

(** ** [__init__] and the static methods *)

Definition fit_own_recommender (lib : implicit) (user_item_matrix : matrix) :=
  ItemItemRecommender lib (transpose (csr_matrix user_item_matrix)).

Definition fit (lib : implicit) (user_item_matrix : matrix) :=
  AlternatingLeastSquares lib (transpose (csr_matrix user_item_matrix)).

Definition fit_bm25 (lib : implicit) (user_item_matrix : matrix) :=
  BM25Recommender lib (transpose (csr_matrix user_item_matrix)).

Definition fit_tfidf (lib : implicit) (user_item_matrix : matrix) :=
  TFIDFRecommender lib (transpose (csr_matrix user_item_matrix)).

Definition fit_cosine (lib : implicit) (user_item_matrix : matrix) :=
  CosineRecommender lib (transpose (csr_matrix user_item_matrix)).

Definition __init__ (lib : implicit) (data : list interaction)
    (weighting : bool) : res MainRecommender :=
  let top_purchases := groupby_user_item_count data in
  let top_purchases := sort_values_desc p_quantity top_purchases in
  let top_purchases :=
    filter (λ r, p_item r ≠ unknown_item) top_purchases in
  let overall_top_purchases := groupby_item_count data in
  let overall_top_purchases := sort_values_desc snd overall_top_purchases in
  let overall_top_purchases :=
    filter (λ r, r.1 ≠ unknown_item) overall_top_purchases in
  let overall_top_purchases := fst <$> overall_top_purchases in
  let frame := _prepare_matrix data in
  let '(id_to_itemid, id_to_userid, itemid_to_id, userid_to_id) :=
    _prepare_dicts frame in
  res_bind (if weighting
            then res_bind (bm25_weight lib (transpose (values frame)))
                          (λ w, Ok (Array w))
            else Ok (Frame frame)) (λ user_item_matrix,
  res_bind (fit lib user_item_matrix) (λ model,
  res_bind (fit_bm25 lib user_item_matrix) (λ model_bm25,
  res_bind (fit_tfidf lib user_item_matrix) (λ model_tfidf,
  res_bind (fit_cosine lib user_item_matrix) (λ model_cosine,
  res_bind (fit_own_recommender lib user_item_matrix) (λ own_recommender,
  Ok {| top_purchases := top_purchases;
        overall_top_purchases := overall_top_purchases;
        user_item_matrix := user_item_matrix;
        id_to_itemid := id_to_itemid;
        id_to_userid := id_to_userid;
        itemid_to_id := itemid_to_id;
        userid_to_id := userid_to_id;
        model_attrs :=
          <["own_recommender" := own_recommender]>
          (<["model_cosine" := model_cosine]>
          (<["model_tfidf" := model_tfidf]>
          (<["model_bm25" := model_bm25]>
          (<["model" := model]> ∅)))) |})))))).

(** ** The methods *)

(** [_update_dict(user_id)] *)
Definition _update_dict (user_id : Z) : M unit :=
  self ← get_self;
  if bool_decide (KInt user_id ∉ dom (userid_to_id self)) then
    max_id ← lift (py_max (dict_values (userid_to_id self)));
    let max_id := max_id + 1 in
    modify (λ self,
      set_userid_to_id (<[KInt user_id := max_id]> (userid_to_id self)) self);;
    modify (λ self,
      set_id_to_userid (<[KInt max_id := user_id]> (id_to_userid self)) self)
  else mret tt.

(** The loop of [_get_similar_item]: the first record whose first
    component differs from [item_id] decides; [None] when there is none. *)
Fixpoint first_other (self : MainRecommender) (item_id : Z)
    (recs : list (Z * float)) : res (option Z) :=
  match recs with
  | [] => Ok None
  | rec :: recs' =>
      if bool_decide (rec.1 ≠ item_id)
      then res_bind (getitem (id_to_itemid self) (KInt rec.1))
                    (λ i, Ok (Some i))
      else first_other self item_id recs'
  end.

(** [_get_similar_item(item_id)] *)
Definition _get_similar_item (item_id : Z) : M (option Z) :=
  model ← getattr "model";
  self ← get_self;
  idx ← lift (getitem (itemid_to_id self) (KInt item_id));
  recs ← lift (similar_items model idx 2);
  lift (first_other self item_id recs).

(** [_extend_with_top_popular(recommendations, N)].  An entry of a
    recommendation list is an item id or [None].  The source extends the
    list it is given in place; every caller passes a list of its own and
    rebinds it to the result. *)
Definition _extend_with_top_popular (self : MainRecommender)
    (recommendations : list (option Z)) (N : Z) : list (option Z) :=
  if len recommendations <? N then
    let recommendations :=
      recommendations ++ (Some <$> slice_to (overall_top_purchases self) N) in
    slice_to recommendations N
  else recommendations.

(** [assert len(res) == N] *)
Definition assert_len {A} (res : list A) (N : Z) : M (list A) :=
  if bool_decide (len res = N) then mret res else raise AssertionError.

(** [_get_recommendations(user, model, N)] *)
Definition _get_recommendations (user : Z) (model : Model) (N : Z)
  : M (list (option Z)) :=
  _update_dict user;;
  self ← get_self;
  userid ← lift (getitem (userid_to_id self) (KInt user));
  let user_items := csr_matrix (user_item_matrix self) in
  unknown ← lift (getitem (itemid_to_id self) (KInt unknown_item));
  out ← lift (recommend model userid user_items N false [unknown] false);
  res ← lift (res_map (λ rec, getitem (id_to_itemid self) (KInt rec)) out.1);
  let res := _extend_with_top_popular self (Some <$> res) N in
  assert_len res N.

Definition get_als_recommendations (user : Z) (N : Z) : M (list (option Z)) :=
  _update_dict user;;
  model ← getattr "model";
  _get_recommendations user model N.

Definition get_bm25_recommendations (user : Z) (N : Z) : M (list (option Z)) :=
  _update_dict user;;
  model ← getattr "model_bm25";
  _get_recommendations user model N.

Definition get_tfidf_recommendations (user : Z) (N : Z) : M (list (option Z)) :=
  _update_dict user;;
  model ← getattr "model_tfidf";
  _get_recommendations user model N.

Definition get_cosine_recommendations (user : Z) (N : Z)
  : M (list (option Z)) :=
  _update_dict user;;
  model ← getattr "model_cosine";
  _get_recommendations user model N.

Definition get_own_recommendations (user : Z) (N : Z) : M (list (option Z)) :=
  _update_dict user;;
  model ← getattr "own_recommender";
  _get_recommendations user model N.

(** A comprehension or loop whose body is a method call. *)
Fixpoint for_each {A B} (f : A → M B) (l : list A) : M (list B) :=
  match l with
  | [] => mret []
  | x :: l' => y ← f x; ys ← for_each f l'; mret (y :: ys)
  end.

(** [get_similar_items_recommendation(user_id, N)].  The entries are
    kept as the ids and [None] that [_get_similar_item] returned; pandas'
    [apply(...).tolist()] hands a mix of both on as floats and NaN, the
    same entries in the same places. *)
Definition get_similar_items_recommendation (user_id : Z) (N : Z)
  : M (list (option Z)) :=
  self ← get_self;
  let top_users_purchases :=
    slice_to (filter (λ r, p_user r = user_id) (top_purchases self)) N in
  res ← for_each _get_similar_item (p_item <$> top_users_purchases);
  self ← get_self;
  let res := _extend_with_top_popular self res N in
  assert_len res N.

(** [get_similar_users_recommendation(user_id, N)] *)
Definition get_similar_users_recommendation (user_id : Z) (N : Z)
  : M (list (option Z)) :=
  model ← getattr "model";
  self ← get_self;
  userid ← lift (getitem (userid_to_id self) (KInt user_id));
  similar_users ← lift (similar_users model userid (N + 1));
  let similar_users :=
    rec ← similar_users;
    match id_to_userid self !! KStr (str rec.1) with
    | Some u => [u]
    | None => []
    end in
  let similar_users := slice_from1 similar_users in
  res ← for_each (λ _user_id, get_own_recommendations _user_id 1)
                 similar_users;
  let res := concat res in
  self ← get_self;
  let res := _extend_with_top_popular self res N in
  assert_len res N.

(** [_get_scores(user, model, N)] *)
Definition _get_scores (user : Z) (model : Model) (N : Z) : M (list float) :=
  _update_dict user;;
  self ← get_self;
  userid ← lift (getitem (userid_to_id self) (KInt user));
  let user_items := csr_matrix (user_item_matrix self) in
  unknown ← lift (getitem (itemid_to_id self) (KInt unknown_item));
  out ← lift (recommend model userid user_items N false [unknown] true);
  let scores_rec := out.2 in
  scores_rec ←
    (if len scores_rec <? N then
       userid ← lift (getitem (userid_to_id self) (KInt user));
       selected ← lift (res_map
                          (λ item, getitem (itemid_to_id self) (KInt item))
                          (overall_top_purchases self));
       ranked ← lift (rank_items model userid user_items selected true);
       mret (scores_rec ++ ranked.2)
     else mret scores_rec);
  let scores_rec := slice_to scores_rec N in
  assert_len scores_rec N.

Definition get_als_scores (user : Z) (N : Z) : M (list float) :=
  _update_dict user;;
  model ← getattr "model_als";
  _get_scores user model N.

Definition get_bm25_scores (user : Z) (N : Z) : M (list float) :=
  _update_dict user;;
  model ← getattr "model_bm25";
  _get_scores user model N.

Definition get_tfidf_scores (user : Z) (N : Z) : M (list float) :=
  _update_dict user;;
  model ← getattr "model_tfidf";
  _get_scores user model N.

Definition get_cosine_scores (user : Z) (N : Z) : M (list float) :=
  _update_dict user;;
  model ← getattr "model_cosine";
  _get_scores user model N.

Definition get_own_scores (user : Z) (N : Z) : M (list float) :=
  _update_dict user;;
  model ← getattr "own_recommender";
  _get_scores user model N.

(** ** Requests *)

(** The seven recommendation entry points. *)
Inductive request :=
  | Als
  | Bm25
  | Tfidf
  | Cosine
  | Own
  | SimilarItems
  | SimilarUsers.

Definition recommendation_request (r : request) (user : Z) (N : Z)
  : M (list (option Z)) :=
  match r with
  | Als => get_als_recommendations user N
  | Bm25 => get_bm25_recommendations user N
  | Tfidf => get_tfidf_recommendations user N
  | Cosine => get_cosine_recommendations user N
  | Own => get_own_recommendations user N
  | SimilarItems => get_similar_items_recommendation user N
  | SimilarUsers => get_similar_users_recommendation user N
  end.

(** [MainRecommender(data, weighting).method(...)]: construct, then make
    one call; the value or the exception of the whole expression. *)
Definition call {A} (constructed : res MainRecommender) (method : M A)
  : res A :=
  res_bind constructed (λ self, (method self).2).

(** The instance after a run of [_update_dict] calls; a call that raises
    leaves the instance as it was. *)
Definition after_updates (self : MainRecommender) (users : list Z)
  : MainRecommender :=
  foldl (λ self user, (_update_dict user self).1) self users.

(** ** Properties of the tables *)

(** Two tables are inverse to each other, and keyed by integers only. *)
Definition inverse_tables (to_id id_to : gmap pykey Z) : Prop :=
  (∀ k i, to_id !! k = Some i →
          ∃ e, k = KInt e ∧ id_to !! KInt i = Some e) ∧
  (∀ k e, id_to !! k = Some e →
          ∃ i, k = KInt i ∧ to_id !! KInt e = Some i).

Definition tables_bijective (self : MainRecommender) : Prop :=
  inverse_tables (userid_to_id self) (id_to_userid self) ∧
  inverse_tables (itemid_to_id self) (id_to_itemid self).

(** A computation that leaves the instance as it found it. *)
Definition reads {A} (c : M A) : Prop := ∀ self, (c self).1 = self.

(** The same, on instances that know [user]. *)
Definition reads_knowing (user : Z) {A} (c : M A) : Prop :=
  ∀ self, is_Some (userid_to_id self !! KInt user) → (c self).1 = self.

(** [self'] agrees with [self] on every attribute but the two user
    tables. *)
Definition same_frame (self self' : MainRecommender) : Prop :=
  top_purchases self' = top_purchases self ∧
  overall_top_purchases self' = overall_top_purchases self ∧
  user_item_matrix self' = user_item_matrix self ∧
  id_to_itemid self' = id_to_itemid self ∧
  itemid_to_id self' = itemid_to_id self ∧
  model_attrs self' = model_attrs self.

(** The library leaves the ids passed as [filter_items] out of what
    [recommend] returns. *)
Definition honours_filter_items (model : Model) : Prop :=
  ∀ userid user_items N liked filter_items recalculate ids scores,
    recommend model userid user_items N liked filter_items recalculate
      = Ok (ids, scores) →
    ∀ i, i ∈ filter_items → i ∉ ids.

(** ** A small library and data set to run the methods on *)

Definition one : float := {| mant := 1; expo := 0 |}.
Definition half : float := {| mant := 1; expo := -1 |}.

(** A model given by tables: [ranking u] is the ranked item indices for
    user index [u] ([None] when the model has no such user); [recommend]
    drops the filtered items and keeps the first [N]. *)
Definition table_model (ranking : Z → option (list Z))
    (neighbours peers : Z → list (Z * float)) : Model :=
  {| recommend := λ userid _ N _ filter_items _,
       match ranking userid with
       | Some ids =>
           let ids := slice_to (filter (λ i, i ∉ filter_items) ids) N in
           Ok (ids, (λ _, one) <$> ids)
       | None => Raise LibraryError
       end;
     rank_items := λ userid _ selected_items _,
       match ranking userid with
       | Some _ => Ok (selected_items, (λ _, half) <$> selected_items)
       | None => Raise LibraryError
       end;
     similar_items := λ itemid N, Ok (slice_to (neighbours itemid) N);
     similar_users := λ userid N, Ok (slice_to (peers userid) N) |}.

(** Every recommender class fits to the same table model. *)
Definition table_library (m : Model) : implicit :=
  {| bm25_weight := λ cells, Ok cells;
     AlternatingLeastSquares := λ _, Ok m;
     ItemItemRecommender := λ _, Ok m;
     BM25Recommender := λ _, Ok m;
     TFIDFRecommender := λ _, Ok m;
     CosineRecommender := λ _, Ok m |}.

Definition bought (u i : Z) : interaction :=
  {| user_id := u; item_id := i; quantity := 1 |}.

(** Users 1 and 2 (indices 0 and 1); items 10, 20 and the sentinel
    (indices 0, 1 and 2). *)
Definition shop_data : list interaction :=
  [bought 1 10; bought 1 10; bought 2 20; bought 2 999999; bought 1 999999].

(** The model ranks only item index 0 for user index 0 and lists each
    item and each user first among its own neighbours. *)
Definition shop_model : Model :=
  table_model
    (λ u, if bool_decide (u = 0) then Some [0]
          else if bool_decide (u = 1) then Some [1; 0; 2] else None)
    (λ i, if bool_decide (i = 0) then [(0, one); (1, half)]
          else if bool_decide (i = 1) then [(1, one); (0, half)]
          else [(2, one); (1, half)])
    (λ u, if bool_decide (u = 0) then [(0, one); (1, half)]
          else [(1, one); (0, half)]).

Definition shop : res MainRecommender :=
  __init__ (table_library shop_model) shop_data false.

(** The instance [__init__] builds from the shop data. *)
Definition shop_state : MainRecommender :=
  {| top_purchases :=
       [ {| p_user := 1; p_item := 10; p_quantity := 2 |};
         {| p_user := 2; p_item := 20; p_quantity := 1 |} ];
     overall_top_purchases := [10; 20];
     user_item_matrix := Frame (_prepare_matrix shop_data);
     id_to_itemid :=
       <[KInt 0 := 10]> (<[KInt 1 := 20]> (<[KInt 2 := 999999]> ∅));
     id_to_userid := <[KInt 0 := 1]> (<[KInt 1 := 2]> ∅);
     itemid_to_id :=
       <[KInt 10 := 0]> (<[KInt 20 := 1]> (<[KInt 999999 := 2]> ∅));
     userid_to_id := <[KInt 1 := 0]> (<[KInt 2 := 1]> ∅);
     model_attrs :=
       <["model" := shop_model]>
       (<["model_bm25" := shop_model]>
       (<["model_tfidf" := shop_model]>
       (<["model_cosine" := shop_model]>
       (<["own_recommender" := shop_model]> ∅)))) |}.

(** One user; item 0 (index 0) and the sentinel (index 1). *)
Definition kiosk_data : list interaction :=
  [bought 1 0; bought 1 999999].

Definition kiosk_model : Model :=
  table_model
    (λ u, if bool_decide (u = 0) then Some [0; 1] else None)
    (λ i, if bool_decide (i = 0) then [(0, one); (1, half)]
          else [(1, one); (0, half)])
    (λ u, [(0, one)]).

Definition kiosk : res MainRecommender :=
  __init__ (table_library kiosk_model) kiosk_data false.

(** The instance [__init__] builds from the kiosk data. *)
Definition kiosk_state : MainRecommender :=
  {| top_purchases := [ {| p_user := 1; p_item := 0; p_quantity := 1 |} ];
     overall_top_purchases := [0];
     user_item_matrix := Frame (_prepare_matrix kiosk_data);
     id_to_itemid := <[KInt 0 := 0]> (<[KInt 1 := 999999]> ∅);
     id_to_userid := <[KInt 0 := 1]> ∅;
     itemid_to_id := <[KInt 0 := 0]> (<[KInt 999999 := 1]> ∅);
     userid_to_id := <[KInt 1 := 0]> ∅;
     model_attrs :=
       <["model" := kiosk_model]>
       (<["model_bm25" := kiosk_model]>
       (<["model_tfidf" := kiosk_model]>
       (<["model_cosine" := kiosk_model]>
       (<["own_recommender" := kiosk_model]> ∅)))) |}.

(** The instance [__init__] builds from an empty transaction table. *)
Definition bare_state : MainRecommender :=
  {| top_purchases := [];
     overall_top_purchases := [];
     user_item_matrix := Frame (_prepare_matrix []);
     id_to_itemid := ∅;
     id_to_userid := ∅;
     itemid_to_id := ∅;
     userid_to_id := ∅;
     model_attrs :=
       <["model" := shop_model]>
       (<["model_bm25" := shop_model]>
       (<["model_tfidf" := shop_model]>
       (<["model_cosine" := shop_model]>
       (<["own_recommender" := shop_model]> ∅)))) |}.

(** * Proofs *)

(** ** The example instances are what [__init__] builds *)

Lemma shop_constructed :
  __init__ (table_library shop_model) shop_data false = Ok shop_state.
Proof. vm_compute. reflexivity. Qed.

Lemma kiosk_constructed :
  __init__ (table_library kiosk_model) kiosk_data false = Ok kiosk_state.
Proof. vm_compute. reflexivity. Qed.

(** ** Lists, slices and [max] *)

Section slices.
Context {A : Type}.
Implicit Types (l : list A) (n : Z).

Lemma len_nonneg l : 0 ≤ len l.
Proof. unfold len. lia. Qed.

Lemma len_app l k : len (l ++ k) = len l + len k.
Proof. unfold len. rewrite length_app. lia. Qed.

Lemma len_fmap {B} (f : A → B) l : len (f <$> l) = len l.
Proof. unfold len. by rewrite length_fmap. Qed.

Lemma slice_to_nonneg l n : 0 ≤ n → slice_to l n = take (Z.to_nat n) l.
Proof.
  intros Hn. unfold slice_to.
  destruct (Z.ltb_spec n 0); [lia | done].
Qed.

Lemma len_slice_to l n : 0 ≤ n → len (slice_to l n) = Z.min n (len l).
Proof.
  intros Hn. rewrite slice_to_nonneg by done.
  unfold len. rewrite length_take. lia.
Qed.

Lemma slice_to_all l n : len l ≤ n → slice_to l n = l.
Proof.
  intros Hle. pose proof (len_nonneg l).
  rewrite slice_to_nonneg by lia.
  apply take_ge. unfold len in *. lia.
Qed.

Lemma slice_to_prefix l n : ∃ k, slice_to l n = take k l.
Proof. unfold slice_to. destruct (n <? 0); eauto. Qed.

Lemma Forall_slice_to (P : A → Prop) l n :
  Forall P l → Forall P (slice_to l n).
Proof.
  intros HP. destruct (slice_to_prefix l n) as [k ->].
  by apply Forall_take.
Qed.

Lemma elem_of_slice_to x l n : x ∈ slice_to l n → x ∈ l.
Proof.
  destruct (slice_to_prefix l n) as [k ->].
  intros Hx. rewrite <- (take_drop k l). apply elem_of_app. by left.
Qed.

Lemma slice_to_fmap {B} (f : A → B) l n :
  slice_to (f <$> l) n = f <$> slice_to l n.
Proof.
  unfold slice_to. rewrite len_fmap.
  destruct (n <? 0); by rewrite fmap_take.
Qed.
End slices.

Lemma foldl_max_ge (l : list Z) (x : Z) :
  x ≤ foldl Z.max x l ∧ ∀ y, y ∈ l → y ≤ foldl Z.max x l.
Proof.
  revert x. induction l as [|a l IH]; intros x; simpl.
  - split; [lia|]. intros y Hy. by apply elem_of_nil in Hy.
  - destruct (IH (Z.max x a)) as [H1 H2]. split; [lia|].
    intros y [->|Hy]%elem_of_cons; [lia | by apply H2].
Qed.

Lemma foldl_max_elem (l : list Z) (x : Z) : foldl Z.max x l ∈ x :: l.
Proof.
  revert x. induction l as [|a l IH]; intros x; simpl.
  - apply list_elem_of_here.
  - specialize (IH (Z.max x a)).
    apply elem_of_cons in IH as [Heq|Hin].
    + rewrite Heq. destruct (Z.max_spec x a) as [[_ ->]|[_ ->]].
      * apply list_elem_of_further, list_elem_of_here.
      * apply list_elem_of_here.
    + by do 2 apply list_elem_of_further.
Qed.

(** [max] of a non-empty list is one of its elements and bounds them all. *)
Lemma py_max_Ok (l : list Z) (m : Z) :
  py_max l = Ok m → m ∈ l ∧ ∀ y, y ∈ l → y ≤ m.
Proof.
  destruct l as [|x l]; simpl; [done|].
  intros [= <-]. split; [apply foldl_max_elem|].
  destruct (foldl_max_ge l x) as [Hx Hl].
  intros y [->|Hy]%elem_of_cons; [done | by apply Hl].
Qed.

Lemma py_max_Raise (l : list Z) (e : exn) :
  py_max l = Raise e → l = [] ∧ e = ValueError.
Proof. destruct l; simpl; [intros [= <-]; by split | done]. Qed.

Lemma py_max_nonempty (l : list Z) : l ≠ [] → ∃ m, py_max l = Ok m.
Proof. destruct l; [done | simpl; eauto]. Qed.

(** ** Dictionaries *)

Lemma elem_of_dict_values (d : gmap pykey Z) (i : Z) :
  i ∈ dict_values d ↔ ∃ k, d !! k = Some i.
Proof.
  unfold dict_values. rewrite list_elem_of_fmap. split.
  - intros [[k v] [-> Hkv]]. exists k. by apply elem_of_map_to_list.
  - intros [k Hk]. exists (k, i). split; [done|].
    by apply elem_of_map_to_list.
Qed.

Lemma dict_values_nil (d : gmap pykey Z) : dict_values d = [] ↔ d = ∅.
Proof.
  unfold dict_values. rewrite <- map_to_list_empty_iff. split.
  - apply fmap_nil_inv.
  - by intros ->.
Qed.

Lemma not_in_dom_None (d : gmap pykey Z) (k : pykey) :
  k ∉ dom d ↔ d !! k = None.
Proof. apply not_elem_of_dom. Qed.

(** A dictionary built from pairs with distinct keys holds exactly the
    pairs. *)
Lemma foldl_insert_lookup (l : list (pykey * Z)) (d : gmap pykey Z) k v :
  NoDup (fst <$> l) →
  foldl (λ d kv, <[kv.1 := kv.2]> d) d l !! k = Some v ↔
  (k, v) ∈ l ∨ ((k ∉ fst <$> l) ∧ d !! k = Some v).
Proof.
  revert d. induction l as [|[k' v'] l IH]; intros d Hnd; simpl.
  - split; [intros ?; right; split; [apply not_elem_of_nil | done]|].
    intros [Hin|[_ ?]]; [by apply elem_of_nil in Hin | done].
  - apply NoDup_cons in Hnd as [Hk' Hnd].
    rewrite (IH _ Hnd). rewrite elem_of_cons, not_elem_of_cons.
    destruct (decide (k = k')) as [->|Hne].
    + rewrite lookup_insert_eq. split.
      * intros [Hin|[_ [= ->]]]; [|by left; left].
        exfalso. apply Hk'. apply list_elem_of_fmap. by exists (k', v).
      * intros [[[= ->]|Hin]|[[? _] _]]; [|by left|done].
        right. split; [done|done].
    + rewrite lookup_insert_ne by done. split.
      * intros [Hin|[Hnot Hd]]; [by left; right|]. by right.
      * intros [[[= ? ?]|Hin]|[[_ Hnot] Hd]]; [done|by left|by right].
Qed.

Lemma dict_zip_lookup (ks : list pykey) (vs : list Z) k v :
  NoDup ks →
  dict_zip ks vs !! k = Some v ↔
  ∃ n : nat, ks !! n = Some k ∧ vs !! n = Some v.
Proof.
  intros Hnd. unfold dict_zip. rewrite foldl_insert_lookup.
  - rewrite lookup_empty. split.
    + intros [Hin|[_ ?]]; [|done].
      apply list_elem_of_lookup in Hin as [n Hn].
      apply lookup_zip_Some in Hn. by exists n.
    + intros [n Hn]. left. apply list_elem_of_lookup. exists n.
      by apply lookup_zip_Some.
  - revert vs. induction Hnd as [|x ks Hx Hnd IH]; intros vs.
    + constructor.
    + destruct vs as [|y vs]; simpl; [constructor|].
      constructor; [|apply IH].
      intros Hin. apply Hx.
      apply list_elem_of_fmap in Hin as [[a b] [-> Hab]].
      by apply elem_of_zip_l in Hab.
Qed.

Lemma arange_lookup (n j : nat) (i : Z) :
  arange n !! j = Some i ↔ i = Z.of_nat j ∧ (j < n)%nat.
Proof.
  unfold arange. rewrite list_lookup_fmap, fmap_Some. split.
  - intros [m [[-> Hlt]%lookup_seq ->]]. done.
  - intros [-> Hlt]. exists j. split; [by apply lookup_seq|done].
Qed.

Lemma NoDup_arange (n : nat) : NoDup (KInt <$> arange n).
Proof.
  unfold arange. apply NoDup_fmap_2; [by intros ?? [=]|].
  apply NoDup_fmap_2; [intros ???; lia | apply NoDup_seq].
Qed.

Lemma NoDup_sorted_unique (l : list Z) : NoDup (sorted_unique l).
Proof.
  unfold sorted_unique. rewrite merge_sort_Permutation.
  apply NoDup_remove_dups.
Qed.

Lemma elem_of_sorted_unique (l : list Z) (x : Z) :
  x ∈ sorted_unique l ↔ x ∈ l.
Proof.
  unfold sorted_unique. rewrite merge_sort_Permutation.
  apply elem_of_remove_dups.
Qed.

(** The two dictionaries built from a list of distinct labels and its
    positions are inverse to each other. *)
Lemma prepare_inverse (ids : list Z) :
  NoDup ids →
  inverse_tables (dict_zip (KInt <$> ids) (arange (length ids)))
                 (dict_zip (KInt <$> arange (length ids)) ids).
Proof.
  intros Hnd.
  assert (NoDup (KInt <$> ids)) as Hk
    by (apply NoDup_fmap_2; [by intros ?? [=] | done]).
  pose proof (NoDup_arange (length ids)) as Ha.
  split.
  - intros k i Hki. apply (dict_zip_lookup _ _ _ _ Hk) in Hki as [n [Hn Hi]].
    rewrite list_lookup_fmap, fmap_Some in Hn. destruct Hn as [e [He ->]].
    exists e. split; [done|].
    apply (dict_zip_lookup _ _ _ _ Ha). exists n. split; [|done].
    rewrite list_lookup_fmap, Hi. done.
  - intros k e Hke. apply (dict_zip_lookup _ _ _ _ Ha) in Hke as [n [Hn He]].
    rewrite list_lookup_fmap, fmap_Some in Hn. destruct Hn as [i [Hi ->]].
    exists i. split; [done|].
    apply (dict_zip_lookup _ _ _ _ Hk). exists n. split; [|done].
    rewrite list_lookup_fmap, He. done.
Qed.

(** The keys of a table built over a list of labels are those labels. *)
Lemma dict_zip_labels (ids : list Z) (e : Z) :
  NoDup ids →
  is_Some (dict_zip (KInt <$> ids) (arange (length ids)) !! KInt e)
  ↔ e ∈ ids.
Proof.
  intros Hnd.
  assert (NoDup (KInt <$> ids)) as Hk
    by (apply NoDup_fmap_2; [by intros ?? [=] | done]).
  split.
  - intros [i Hi]. apply (dict_zip_lookup _ _ _ _ Hk) in Hi as [n [Hn _]].
    rewrite list_lookup_fmap, fmap_Some in Hn. destruct Hn as [e' [He [= ->]]].
    apply list_elem_of_lookup. by exists n.
  - intros [n Hn]%list_elem_of_lookup. exists (Z.of_nat n).
    apply (dict_zip_lookup _ _ _ _ Hk). exists n. split.
    + by rewrite list_lookup_fmap, Hn.
    + apply arange_lookup. split; [done|]. by apply lookup_lt_Some in Hn.
Qed.

(** ** Running the methods *)

Ltac run :=
  unfold mbind, M_bind, bind, mret, M_ret, ret, lift, raise, get_self,
    modify, getattr, assert_len in *; simpl in *.

Lemma reads_ret {A} (a : A) : reads (mret a).
Proof. by intros self. Qed.

Lemma reads_lift {A} (r : res A) : reads (lift r).
Proof. by intros self. Qed.

Lemma reads_raise {A} (e : exn) : reads (@raise A e).
Proof. by intros self. Qed.

Lemma reads_get_self : reads get_self.
Proof. by intros self. Qed.

Lemma reads_getattr (name : string) : reads (getattr name).
Proof. intros self. unfold getattr. by destruct (model_attrs self !! name). Qed.

Lemma reads_assert_len {A} (l : list A) (N : Z) : reads (assert_len l N).
Proof. intros self. unfold assert_len. by case_bool_decide. Qed.

Lemma reads_bind {A B} (c : M A) (k : A → M B) :
  reads c → (∀ a, reads (k a)) → reads (c ≫= k).
Proof.
  intros Hc Hk self. run. specialize (Hc self).
  destruct (c self) as [s [a|e]]; simpl in *; subst; [apply Hk | done].
Qed.

Lemma reads_knowing_bind {A B} (user : Z) (c : M A) (k : A → M B) :
  reads_knowing user c → (∀ a, reads_knowing user (k a)) →
  reads_knowing user (c ≫= k).
Proof.
  intros Hc Hk self Hu. run. specialize (Hc self Hu).
  destruct (c self) as [s [a|e]]; simpl in *; subst; [by apply Hk | done].
Qed.

Lemma reads_reads_knowing {A} (user : Z) (c : M A) :
  reads c → reads_knowing user c.
Proof. intros Hc self _. apply Hc. Qed.

Create HintDb reads.

#[local] Hint Resolve reads_ret reads_lift reads_raise reads_get_self
  reads_getattr reads_assert_len : reads.

(** Inversion of a bind that returned. *)
Lemma bind_Ok {A B} (c : M A) (k : A → M B) self self' (b : B) :
  (c ≫= k) self = (self', Ok b) →
  ∃ a s, c self = (s, Ok a) ∧ k a s = (self', Ok b).
Proof.
  run. destruct (c self) as [s [a|e]]; [eauto | done].
Qed.

Lemma assert_len_Ok {A} (l l' : list A) (N : Z) self self' :
  assert_len l N self = (self', Ok l') →
  self' = self ∧ l' = l ∧ len l = N.
Proof. unfold assert_len. case_bool_decide; run; naive_solver. Qed.

(** ** [_update_dict] *)

Lemma update_dict_known (self : MainRecommender) (user : Z) :
  is_Some (userid_to_id self !! KInt user) →
  _update_dict user self = (self, Ok tt).
Proof.
  intros Hu. unfold _update_dict. run.
  rewrite bool_decide_eq_false_2; [done|].
  intros Hnot. by apply not_elem_of_dom, eq_None_not_Some in Hnot.
Qed.

Lemma update_dict_new (self : MainRecommender) (user max_id : Z) :
  userid_to_id self !! KInt user = None →
  py_max (dict_values (userid_to_id self)) = Ok max_id →
  _update_dict user self =
    (set_id_to_userid (<[KInt (max_id + 1) := user]> (id_to_userid self))
       (set_userid_to_id (<[KInt user := max_id + 1]> (userid_to_id self))
          self), Ok tt).
Proof.
  intros Hu Hmax. unfold _update_dict. run.
  rewrite bool_decide_eq_true_2 by by apply not_elem_of_dom.
  by rewrite Hmax.
Qed.

Lemma update_dict_empty (self : MainRecommender) (user : Z) :
  dict_values (userid_to_id self) = [] →
  _update_dict user self = (self, Raise ValueError).
Proof.
  intros Hnil. unfold _update_dict. run.
  assert (userid_to_id self !! KInt user = None) as Hu.
  { apply dict_values_nil in Hnil. rewrite Hnil. apply lookup_empty. }
  rewrite bool_decide_eq_true_2 by by apply not_elem_of_dom.
  by rewrite Hnil.
Qed.

(** The three ways [_update_dict] can end. *)
Lemma update_dict_cases (self : MainRecommender) (user : Z) :
  (is_Some (userid_to_id self !! KInt user) ∧
   _update_dict user self = (self, Ok tt)) ∨
  (∃ max_id, userid_to_id self !! KInt user = None ∧
     py_max (dict_values (userid_to_id self)) = Ok max_id ∧
     _update_dict user self =
       (set_id_to_userid (<[KInt (max_id + 1) := user]> (id_to_userid self))
          (set_userid_to_id (<[KInt user := max_id + 1]> (userid_to_id self))
             self), Ok tt)) ∨
  (dict_values (userid_to_id self) = [] ∧
   _update_dict user self = (self, Raise ValueError)).
Proof.
  destruct (userid_to_id self !! KInt user) as [i|] eqn:Hu.
  - left. split; [by eexists|]. apply update_dict_known. by rewrite Hu.
  - destruct (py_max (dict_values (userid_to_id self))) as [m|e] eqn:Hmax.
    + right; left. exists m. by rewrite (update_dict_new _ _ m).
    + right; right. apply py_max_Raise in Hmax as [Hnil _].
      split; [done | by apply update_dict_empty].
Qed.

(** What [_update_dict] never touches. *)
Lemma update_dict_frame (self : MainRecommender) (user : Z) :
  same_frame self (_update_dict user self).1.
Proof.
  unfold same_frame.
  destruct (update_dict_cases self user)
    as [[_ ->]|[[m (_ & _ & ->)]|[_ ->]]]; done.
Qed.

(** After a call that returned, the user is known. *)
Lemma update_dict_knows (self self' : MainRecommender) (user : Z) :
  _update_dict user self = (self', Ok tt) →
  is_Some (userid_to_id self' !! KInt user).
Proof.
  destruct (update_dict_cases self user)
    as [[Hu ->]|[[m (_ & _ & ->)]|[_ ->]]]; intros [= <-]; [done|].
  simpl. rewrite lookup_insert_eq. by eexists.
Qed.

Lemma update_dict_then {A} (user : Z) (c : M A) (self : MainRecommender) :
  reads_knowing user c →
  ((_update_dict user;; c) self).1 = (_update_dict user self).1.
Proof.
  intros Hc. run.
  destruct (_update_dict user self) as [s [[]|e]] eqn:Hupd; [|done].
  simpl. apply Hc. by apply (update_dict_knows self).
Qed.

Lemma reads_knowing_update_dict (user : Z) :
  reads_knowing user (_update_dict user).
Proof. intros self Hu. by rewrite update_dict_known. Qed.

Lemma update_dict_preserves_inverse (self : MainRecommender) (user : Z) :
  inverse_tables (userid_to_id self) (id_to_userid self) →
  let self' := (_update_dict user self).1 in
  inverse_tables (userid_to_id self') (id_to_userid self').
Proof.
  intros [Hto Hfrom].
  destruct (update_dict_cases self user)
    as [[_ ->]|[[m (Hu & Hmax & ->)]|[_ ->]]]; [done| |done].
  simpl. apply py_max_Ok in Hmax as [_ Hle]. split.
  - intros k i. destruct (decide (k = KInt user)) as [->|Hne].
    + rewrite lookup_insert_eq. intros [= <-]. exists user.
      by rewrite lookup_insert_eq.
    + rewrite lookup_insert_ne by done. intros Hk.
      destruct (Hto k i Hk) as [e [-> He]]. exists e. split; [done|].
      rewrite lookup_insert_ne; [done|].
      intros [= Heq]. specialize (Hle i).
      rewrite elem_of_dict_values in Hle. specialize (Hle (ex_intro _ _ Hk)).
      lia.
  - intros k e. destruct (decide (k = KInt (m + 1))) as [->|Hne].
    + rewrite lookup_insert_eq. intros [= <-]. exists (m + 1).
      by rewrite lookup_insert_eq.
    + rewrite lookup_insert_ne by done. intros Hk.
      destruct (Hfrom k e Hk) as [i [-> Hi]]. exists i. split; [done|].
      rewrite lookup_insert_ne; [done|].
      intros [= ->]. by rewrite Hu in Hi.
Qed.

Ltac reads_steps :=
  repeat first
    [ progress auto with reads
    | apply reads_bind; [|intros ?]
    | match goal with |- reads (if ?b then _ else _) => destruct b end ].

Lemma reads_knowing_get_recommendations (user : Z) (model : Model) (N : Z) :
  reads_knowing user (_get_recommendations user model N).
Proof.
  unfold _get_recommendations.
  apply reads_knowing_bind; [apply reads_knowing_update_dict | intros _].
  apply reads_reads_knowing. reads_steps.
Qed.

Lemma reads_knowing_get_scores (user : Z) (model : Model) (N : Z) :
  reads_knowing user (_get_scores user model N).
Proof.
  unfold _get_scores.
  apply reads_knowing_bind; [apply reads_knowing_update_dict | intros _].
  apply reads_reads_knowing. reads_steps.
Qed.

(** An entry point of the form
    [self._update_dict(user); return self._get_...(user, self.<name>, N)]
    leaves the instance as [_update_dict] alone leaves it. *)
Lemma wrapper_state {A} (name : string) (inner : Z → Model → Z → M A)
    (user N : Z) (self : MainRecommender) :
  (∀ model, reads_knowing user (inner user model N)) →
  ((_update_dict user;; model ← getattr name; inner user model N) self).1
  = (_update_dict user self).1.
Proof.
  intros Hinner. apply update_dict_then.
  apply reads_knowing_bind; [|done].
  apply reads_reads_knowing, reads_getattr.
Qed.

(** ** The tables after [__init__] *)

Lemma init_fields lib data weighting (self : MainRecommender) :
  __init__ lib data weighting = Ok self →
  let frame := _prepare_matrix data in
  top_purchases self =
    filter (λ r, p_item r ≠ unknown_item)
      (sort_values_desc p_quantity (groupby_user_item_count data)) ∧
  overall_top_purchases self =
    fst <$> filter (λ r, r.1 ≠ unknown_item)
      (sort_values_desc snd (groupby_item_count data)) ∧
  _prepare_dicts frame =
    (id_to_itemid self, id_to_userid self, itemid_to_id self,
     userid_to_id self) ∧
  model_attrs self !! "model_als" = None.
Proof.
  unfold __init__. intros Hinit. simpl.
  destruct (_prepare_dicts (_prepare_matrix data)) as [[[d1 d2] d3] d4].
  unfold res_bind in Hinit.
  repeat match type of Hinit with
         | match ?r with _ => _ end = _ => destruct r; try discriminate
         end.
  injection Hinit as <-. simpl. done.
Qed.

Lemma init_tables_bijective lib data weighting (self : MainRecommender) :
  __init__ lib data weighting = Ok self → tables_bijective self.
Proof.
  intros Hinit. apply init_fields in Hinit as (_ & _ & Hd & _).
  unfold tables_bijective.
  unfold _prepare_dicts in Hd. injection Hd as <- <- <- <-. simpl.
  split; apply prepare_inverse, NoDup_sorted_unique.
Qed.

Lemma after_updates_tables_bijective (self : MainRecommender) users :
  tables_bijective self → tables_bijective (after_updates self users).
Proof.
  unfold after_updates. revert self.
  induction users as [|user users IH]; intros self Hself; [done|].
  simpl. apply IH. destruct Hself as [Husers Hitems]. split.
  - by apply update_dict_preserves_inverse.
  - destruct (update_dict_frame self user) as (_ & _ & _ & H1 & H2 & _).
    by rewrite H1, H2.
Qed.

Lemma after_updates_frame (self : MainRecommender) users :
  same_frame self (after_updates self users).
Proof.
  unfold after_updates. revert self.
  induction users as [|user users IH]; intros self; [done|].
  simpl. destruct (IH (_update_dict user self).1)
    as (H1 & H2 & H3 & H4 & H5 & H6).
  destruct (update_dict_frame self user) as (G1 & G2 & G3 & G4 & G5 & G6).
  unfold same_frame. by rewrite H1, H2, H3, H4, H5, H6.
Qed.

Lemma inverse_tables_inj (to_id id_to : gmap pykey Z) :
  inverse_tables to_id id_to →
  (∀ k1 k2 i, to_id !! k1 = Some i → to_id !! k2 = Some i → k1 = k2) ∧
  (∀ k1 k2 e, id_to !! k1 = Some e → id_to !! k2 = Some e → k1 = k2).
Proof.
  intros [Hto Hfrom]. split.
  - intros k1 k2 i H1 H2.
    destruct (Hto _ _ H1) as [e1 [-> He1]].
    destruct (Hto _ _ H2) as [e2 [-> He2]]. congruence.
  - intros k1 k2 e H1 H2.
    destruct (Hfrom _ _ H1) as [i1 [-> Hi1]].
    destruct (Hfrom _ _ H2) as [i2 [-> Hi2]]. congruence.
Qed.

(** * The claims about the id tables *)

(** C4, as the code has it.  For a user id that is not in
    [userid_to_id], [_update_dict]
    enters it in [userid_to_id] and in [id_to_userid] under the index one
    above the largest index in use, and leaves the matrix (and every other
    attribute) alone; for a user id that is present it changes nothing.
    The recommendation and score entry points leave the instance exactly
    as [_update_dict] does.  The table must hold at least one user, as it
    does after construction from a non-empty transaction table: [max] of
    no indices raises. *)
Theorem update_dict_assigns_next_index (self : MainRecommender) (user : Z) :
  dict_values (userid_to_id self) ≠ [] →
  (KInt user ∉ dom (userid_to_id self) →
   ∃ max_id self',
     _update_dict user self = (self', Ok tt) ∧
     max_id ∈ dict_values (userid_to_id self) ∧
     (∀ i, i ∈ dict_values (userid_to_id self) → i < max_id + 1) ∧
     userid_to_id self' = <[KInt user := max_id + 1]> (userid_to_id self) ∧
     id_to_userid self' = <[KInt (max_id + 1) := user]> (id_to_userid self) ∧
     user_item_matrix self' = user_item_matrix self ∧
     id_to_itemid self' = id_to_itemid self ∧
     itemid_to_id self' = itemid_to_id self ∧
     top_purchases self' = top_purchases self ∧
     overall_top_purchases self' = overall_top_purchases self ∧
     model_attrs self' = model_attrs self) ∧
  (KInt user ∈ dom (userid_to_id self) →
   _update_dict user self = (self, Ok tt)) ∧
  (∀ N,
     Forall (λ entry : Z → Z → M (list (option Z)),
               (entry user N self).1 = (_update_dict user self).1)
       [get_als_recommendations; get_bm25_recommendations;
        get_tfidf_recommendations; get_cosine_recommendations;
        get_own_recommendations] ∧
     Forall (λ entry : Z → Z → M (list float),
               (entry user N self).1 = (_update_dict user self).1)
       [get_als_scores; get_bm25_scores; get_tfidf_scores;
        get_cosine_scores; get_own_scores]).
Proof.
  intros Hnonempty. split; [|split].
  - intros Hnew%not_elem_of_dom.
    destruct (py_max_nonempty _ Hnonempty) as [m Hmax].
    exists m. eexists. split; [by apply update_dict_new|].
    apply py_max_Ok in Hmax as [Hin Hle]. simpl.
    repeat split; try done.
    intros i Hi. specialize (Hle i Hi). lia.
  - intros Hknown%elem_of_dom. by apply update_dict_known.
  - intros N. split.
    + repeat constructor;
        apply wrapper_state; intros; apply reads_knowing_get_recommendations.
    + repeat constructor;
        apply wrapper_state; intros; apply reads_knowing_get_scores.
Qed.

(** The new user 7 of the shop gets index 2, after the indices 0 and 1. *)
Lemma update_dict_assigns_next_index_witness :
  dict_values (userid_to_id shop_state) ≠ [] ∧
  ∃ self', _update_dict 7 shop_state = (self', Ok tt) ∧
    userid_to_id self' = <[KInt 7 := 2]> (userid_to_id shop_state) ∧
    id_to_userid self' = <[KInt 2 := 7]> (id_to_userid shop_state) ∧
    user_item_matrix self' = user_item_matrix shop_state.
Proof.
  assert (dict_values (userid_to_id shop_state) ≠ []) as Hne
    by (vm_compute; discriminate).
  split; [exact Hne|].
  destruct (update_dict_assigns_next_index shop_state 7 Hne) as [Hnew _].
  destruct Hnew as (m & self' & Hrun & Hm & Hlt & Hu & Hi & Hmx & _).
  { apply not_elem_of_dom. vm_compute. reflexivity. }
  exists self'. split; [exact Hrun|].
  assert (m = 1) as ->.
  { assert (dict_values (userid_to_id shop_state) = [1; 0]) as Hv
      by (vm_compute; reflexivity).
    rewrite Hv in Hm, Hlt.
    specialize (Hlt 1 (list_elem_of_here _ _)).
    apply elem_of_cons in Hm as [->|Hm]; [done|].
    apply list_elem_of_singleton in Hm. lia. }
  repeat split; assumption.
Defined.

(** C4, as the claim has it, fails on the instance built from an empty
    transaction table: user 5 is not in [userid_to_id], and
    [_update_dict] ends in the [ValueError] of [max] of no values without
    giving the user an index. *)
Lemma empty_table_assigns_no_index :
  __init__ (table_library shop_model) [] false = Ok bare_state ∧
  (KInt 5 ∉ dom (userid_to_id bare_state)) ∧
  _update_dict 5 bare_state = (bare_state, Raise ValueError) ∧
  userid_to_id (_update_dict 5 bare_state).1 !! KInt 5 = None ∧
  ¬ (∃ max_id self',
       _update_dict 5 bare_state = (self', Ok tt) ∧
       userid_to_id self' !! KInt 5 = Some (max_id + 1)).
Proof.
  assert (_update_dict 5 bare_state = (bare_state, Raise ValueError)) as Hrun
    by (vm_compute; reflexivity).
  split; [vm_compute; reflexivity|].
  split; [apply not_elem_of_dom; vm_compute; reflexivity|].
  split; [exact Hrun|].
  split; [vm_compute; reflexivity|].
  intros (max_id & self' & Hok & _). rewrite Hrun in Hok. discriminate Hok.
Qed.

(** C5. After construction and after any run of [_update_dict] calls the
    user tables are inverse to each other, and so are the item tables,
    which construction builds over the columns of the matrix; hence no two
    external ids share an index and no two indices share an external
    id. *)
Theorem id_tables_stay_bijective lib data weighting
    (self : MainRecommender) (users : list Z) :
  __init__ lib data weighting = Ok self →
  let self' := after_updates self users in
  inverse_tables (userid_to_id self') (id_to_userid self') ∧
  inverse_tables (itemid_to_id self') (id_to_itemid self') ∧
  (∀ e, is_Some (itemid_to_id self' !! KInt e)
        ↔ e ∈ columns (_prepare_matrix data)) ∧
  (∀ k1 k2 i, userid_to_id self' !! k1 = Some i →
              userid_to_id self' !! k2 = Some i → k1 = k2) ∧
  (∀ k1 k2 e, id_to_userid self' !! k1 = Some e →
              id_to_userid self' !! k2 = Some e → k1 = k2) ∧
  (∀ k1 k2 i, itemid_to_id self' !! k1 = Some i →
              itemid_to_id self' !! k2 = Some i → k1 = k2) ∧
  (∀ k1 k2 e, id_to_itemid self' !! k1 = Some e →
              id_to_itemid self' !! k2 = Some e → k1 = k2).
Proof.
  intros Hinit self'.
  destruct (after_updates_tables_bijective self users
              (init_tables_bijective _ _ _ _ Hinit)) as [Husers Hitems].
  destruct (inverse_tables_inj _ _ Husers) as [Hu1 Hu2].
  destruct (inverse_tables_inj _ _ Hitems) as [Hi1 Hi2].
  split; [exact Husers|]. split; [exact Hitems|].
  split; [|by repeat split].
  intros e. subst self'.
  destruct (after_updates_frame self users) as (_ & _ & _ & _ & Heq & _).
  rewrite Heq.
  apply init_fields in Hinit as (_ & _ & Hd & _).
  unfold _prepare_dicts in Hd. injection Hd as _ _ <- _.
  apply dict_zip_labels, NoDup_sorted_unique.
Qed.

(** The shop after three [_update_dict] calls, two of them for new
    users. *)
Lemma id_tables_stay_bijective_witness :
  __init__ (table_library shop_model) shop_data false = Ok shop_state ∧
  inverse_tables (userid_to_id (after_updates shop_state [7; 1; 8]))
                 (id_to_userid (after_updates shop_state [7; 1; 8])).
Proof.
  assert (__init__ (table_library shop_model) shop_data false = Ok shop_state)
    as Hinit by (vm_compute; reflexivity).
  split; [exact Hinit|].
  exact (proj1 (id_tables_stay_bijective _ _ _ shop_state [7; 1; 8] Hinit)).
Defined.

(** ** Padding *)

Lemma extend_short (self : MainRecommender) (recs : list (option Z)) (N : Z) :
  len recs < N →
  _extend_with_top_popular self recs N =
    slice_to (recs ++ (Some <$> slice_to (overall_top_purchases self) N)) N.
Proof.
  intros Hlt. unfold _extend_with_top_popular.
  destruct (Z.ltb_spec (len recs) N); [done | lia].
Qed.

Lemma extend_long (self : MainRecommender) (recs : list (option Z)) (N : Z) :
  N ≤ len recs → _extend_with_top_popular self recs N = recs.
Proof.
  intros Hle. unfold _extend_with_top_popular.
  destruct (Z.ltb_spec (len recs) N); [lia | done].
Qed.

Lemma len_extend_short (self : MainRecommender) (recs : list (option Z)) N :
  len recs < N →
  len (_extend_with_top_popular self recs N) =
    Z.min N (len recs + Z.min N (len (overall_top_purchases self))).
Proof.
  intros Hlt. pose proof (len_nonneg recs).
  rewrite extend_short by done.
  rewrite len_slice_to, len_app, len_fmap, len_slice_to by lia. done.
Qed.

(** A short list reaches the requested length exactly when the list and
    the popularity list together hold enough entries. *)
Lemma len_extend_short_iff (self : MainRecommender) recs N :
  len recs < N →
  len (_extend_with_top_popular self recs N) = N ↔
  N ≤ len recs + len (overall_top_purchases self).
Proof.
  intros Hlt. rewrite len_extend_short by done.
  pose proof (len_nonneg recs).
  pose proof (len_nonneg (overall_top_purchases self)). lia.
Qed.

Lemma Forall_extend (self : MainRecommender) recs N :
  Forall is_Some recs → Forall is_Some (_extend_with_top_popular self recs N).
Proof.
  intros Hrecs. unfold _extend_with_top_popular.
  destruct (len recs <? N); [|done].
  apply Forall_slice_to, Forall_app. split; [done|].
  apply Forall_fmap, Forall_true. intros x. by eexists.
Qed.

(** ** [_get_recommendations] *)

Lemma res_map_Ok {A B} (f : A → res B) (l : list A) (ys : list B) :
  res_map f l = Ok ys ↔ Forall2 (λ x y, f x = Ok y) l ys.
Proof.
  revert ys. induction l as [|x l IH]; intros ys; simpl.
  - split; [intros [= <-]; constructor | by intros ->%Forall2_nil_inv_l].
  - unfold res_bind. split.
    + destruct (f x) as [y|e] eqn:Hfx; [|done].
      destruct (res_map f l) as [ys'|e]; [|done].
      intros [= <-]. constructor; [done | by apply IH].
    + intros (y & ys' & Hy & Hys & ->)%Forall2_cons_inv_l.
      rewrite Hy. apply IH in Hys. by rewrite Hys.
Qed.

Lemma getitem_Ok (d : gmap pykey Z) (k : pykey) (v : Z) :
  getitem d k = Ok v ↔ d !! k = Some v.
Proof. unfold getitem. destruct (d !! k); naive_solver. Qed.

(** The run of [_get_recommendations] once [_update_dict], the lookups
    and the library call have gone through: the translated ids are padded
    and the length is asserted. *)
Lemma get_recommendations_run (self self' : MainRecommender)
    (user : Z) (model : Model) (N userid unknown : Z)
    (ids : list Z) (scores : list float) (ext : list Z) :
  _update_dict user self = (self', Ok tt) →
  userid_to_id self' !! KInt user = Some userid →
  itemid_to_id self !! KInt unknown_item = Some unknown →
  recommend model userid (csr_matrix (user_item_matrix self)) N false
    [unknown] false = Ok (ids, scores) →
  res_map (λ rec, getitem (id_to_itemid self) (KInt rec)) ids = Ok ext →
  _get_recommendations user model N self =
    assert_len (_extend_with_top_popular self (Some <$> ext) N) N self'.
Proof.
  intros Hupd Huser Hunknown Hrec Hext.
  pose proof (update_dict_frame self user) as Hframe.
  rewrite Hupd in Hframe. destruct Hframe as (_ & Hpop & Hmx & Hid & Hitem & _).
  simpl in *.
  unfold _get_recommendations. run. rewrite Hupd. simpl.
  unfold getitem at 1. rewrite Huser. simpl.
  unfold getitem at 1. rewrite Hitem, Hunknown. simpl.
  rewrite Hmx, Hrec. simpl. rewrite Hid, Hext. simpl.
  unfold _extend_with_top_popular. by rewrite Hpop.
Qed.

Lemma assert_len_run {A} (l : list A) (N : Z) (self : MainRecommender) :
  assert_len l N self =
    (self, if bool_decide (len l = N) then Ok l else Raise AssertionError).
Proof. unfold assert_len. by case_bool_decide. Qed.

(** * The claims about padding and the assertion *)

(** C3. When the model's [recommend] returns fewer than [N] ids, the ids
    are first translated to external ids through [id_to_itemid]; the
    result is the first [N] entries of the translated ids followed by the
    top-[N] popularity items.  It has length [N] and is returned when the
    two together hold [N] entries; otherwise the assertion fails. *)
Theorem short_result_is_padded (self self' : MainRecommender)
    (user : Z) (model : Model) (N userid unknown : Z)
    (ids : list Z) (scores : list float) (ext : list Z) :
  _update_dict user self = (self', Ok tt) →
  userid_to_id self' !! KInt user = Some userid →
  itemid_to_id self !! KInt unknown_item = Some unknown →
  recommend model userid (csr_matrix (user_item_matrix self)) N false
    [unknown] false = Ok (ids, scores) →
  res_map (λ rec, getitem (id_to_itemid self) (KInt rec)) ids = Ok ext →
  len ids < N →
  Forall2 (λ rec e, id_to_itemid self !! KInt rec = Some e) ids ext ∧
  (N ≤ len ids + len (overall_top_purchases self) →
   _get_recommendations user model N self =
     (self', Ok (slice_to ((Some <$> ext) ++
                           (Some <$> slice_to (overall_top_purchases self) N))
                          N)) ∧
   len (slice_to ((Some <$> ext) ++
                  (Some <$> slice_to (overall_top_purchases self) N)) N)
   = N) ∧
  (len ids + len (overall_top_purchases self) < N →
   _get_recommendations user model N self = (self', Raise AssertionError)).
Proof.
  intros Hupd Huser Hunknown Hrec Hext Hshort.
  assert (Forall2 (λ rec e, id_to_itemid self !! KInt rec = Some e) ids ext)
    as Htrans.
  { apply res_map_Ok in Hext. eapply Forall2_impl; [exact Hext|].
    intros rec e. by rewrite getitem_Ok. }
  assert (len ext = len ids) as Hlen.
  { unfold len. by rewrite (Forall2_length _ _ _ Htrans). }
  assert (len (Some <$> ext) < N) as Hshort' by (rewrite len_fmap; lia).
  rewrite (get_recommendations_run _ _ _ _ _ _ _ _ _ _
             Hupd Huser Hunknown Hrec Hext), assert_len_run.
  pose proof (len_extend_short_iff self _ N Hshort') as Hiff.
  rewrite len_fmap, Hlen in Hiff.
  rewrite (extend_short _ _ _ Hshort') in *.
  split; [done|]. split; intros Hpool.
  - rewrite bool_decide_eq_true_2 by by apply Hiff.
    split; [done | by apply Hiff].
  - rewrite bool_decide_eq_false_2; [done|]. rewrite Hiff. lia.
Qed.

(** User 1 of the shop, three recommendations: the model gives one. *)
Lemma short_result_is_padded_witness :
  _update_dict 1 shop_state = (shop_state, Ok tt) ∧
  _get_recommendations 1 shop_model 3 shop_state =
    (shop_state, Ok [Some 10; Some 10; Some 20]).
Proof.
  assert (_update_dict 1 shop_state = (shop_state, Ok tt)) as Hupd
    by (vm_compute; reflexivity).
  split; [exact Hupd|].
  refine (proj1 (proj1 (proj2
    (short_result_is_padded shop_state shop_state 1 shop_model 3 0 2
       [0] [one] [10] Hupd _ _ _ _ _)) _)).
  - vm_compute. reflexivity.
  - vm_compute. reflexivity.
  - vm_compute. reflexivity.
  - vm_compute. reflexivity.
  - vm_compute. reflexivity.
  - vm_compute. discriminate.
Defined.

(** C2, as the code has it.  Once [_update_dict], the lookups and the
    library call have gone through, the assertion of
    [_get_recommendations] fails exactly when the model returned more than
    [N] ids or the model's ids and the popularity list together hold fewer
    than [N] entries.  So with a model that returns at most [N] ids a
    failing assertion means a short model result and a popularity list
    smaller than [N]; the converse does not hold. *)
Theorem assertion_fires_iff_too_few_entries (self self' : MainRecommender)
    (user : Z) (model : Model) (N userid unknown : Z)
    (ids : list Z) (scores : list float) (ext : list Z) :
  _update_dict user self = (self', Ok tt) →
  userid_to_id self' !! KInt user = Some userid →
  itemid_to_id self !! KInt unknown_item = Some unknown →
  recommend model userid (csr_matrix (user_item_matrix self)) N false
    [unknown] false = Ok (ids, scores) →
  res_map (λ rec, getitem (id_to_itemid self) (KInt rec)) ids = Ok ext →
  ((_get_recommendations user model N self).2 = Raise AssertionError ↔
   N < len ids ∨ len ids + len (overall_top_purchases self) < N) ∧
  (len ids ≤ N →
   (_get_recommendations user model N self).2 = Raise AssertionError →
   len ids < N ∧ len (overall_top_purchases self) < N).
Proof.
  intros Hupd Huser Hunknown Hrec Hext.
  assert (len ext = len ids) as Hlen.
  { apply res_map_Ok in Hext. unfold len.
    by rewrite (Forall2_length _ _ _ Hext). }
  rewrite (get_recommendations_run _ _ _ _ _ _ _ _ _ _
             Hupd Huser Hunknown Hrec Hext), assert_len_run. simpl.
  pose proof (len_nonneg ids).
  pose proof (len_nonneg (overall_top_purchases self)).
  assert ((if bool_decide
                (len (_extend_with_top_popular self (Some <$> ext) N) = N)
           then Ok (_extend_with_top_popular self (Some <$> ext) N)
           else Raise AssertionError) = Raise AssertionError ↔
          N < len ids ∨ len ids + len (overall_top_purchases self) < N)
    as Hiff.
  { destruct (decide (len (Some <$> ext) < N)) as [Hshort|Hlong].
    - pose proof (len_extend_short_iff self _ N Hshort) as Hpad.
      rewrite len_fmap, Hlen in Hpad, Hshort.
      case_bool_decide; split; try done; lia.
    - rewrite extend_long by lia. rewrite len_fmap, Hlen in *.
      case_bool_decide; split; try done; lia. }
  split; [exact Hiff|].
  intros Hle Hfail. apply Hiff in Hfail. lia.
Qed.

(** User 1 of the shop, four recommendations: one from the model and
    two popular items are not enough. *)
Lemma assertion_fires_iff_too_few_entries_witness :
  _update_dict 1 shop_state = (shop_state, Ok tt) ∧
  ((_get_recommendations 1 shop_model 4 shop_state).2 = Raise AssertionError ↔
   4 < len [0] ∨ len [0] + len (overall_top_purchases shop_state) < 4).
Proof.
  assert (_update_dict 1 shop_state = (shop_state, Ok tt)) as Hupd
    by (vm_compute; reflexivity).
  split; [exact Hupd|].
  refine (proj1 (assertion_fires_iff_too_few_entries shop_state shop_state 1
                   shop_model 4 0 2 [0] [one] [10] Hupd _ _ _ _)).
  - vm_compute. reflexivity.
  - vm_compute. reflexivity.
  - vm_compute. reflexivity.
  - vm_compute. reflexivity.
Defined.

(** C2, as the claim has it, fails: user 1 of the shop asks for three
    recommendations, the model returns one id and the popularity list
    holds two, fewer than three; the call returns. *)
Lemma small_pool_without_assertion :
  recommend shop_model 0 (csr_matrix (user_item_matrix shop_state)) 3 false
    [2] false = Ok ([0], [one]) ∧
  len (overall_top_purchases shop_state) = 2 ∧
  (get_als_recommendations 1 3 shop_state).2
    = Ok [Some 10; Some 10; Some 20] ∧
  ¬ ((get_als_recommendations 1 3 shop_state).2 = Raise AssertionError ↔
     len [0] < 3 ∧ len (overall_top_purchases shop_state) < 3).
Proof.
  assert ((get_als_recommendations 1 3 shop_state).2
          = Ok [Some 10; Some 10; Some 20]) as Hrun
    by (vm_compute; reflexivity).
  repeat split; try (vm_compute; reflexivity).
  rewrite Hrun. intros [_ Hfires].
  discriminate Hfires. split; vm_compute; reflexivity.
Qed.

(** What padding returns, in one formula: the given list followed by
    as many of the first popularity items as are missing to [N]. *)
Lemma extend_exact (self : MainRecommender) (recs : list (option Z)) (N : Z) :
  _extend_with_top_popular self recs N =
    recs ++ (Some <$> take (Z.to_nat (N - len recs))
                        (overall_top_purchases self)).
Proof.
  pose proof (len_nonneg recs) as Hlen.
  destruct (decide (len recs < N)) as [Hshort|Hlong].
  - rewrite extend_short by done.
    rewrite !slice_to_nonneg by lia.
    rewrite take_app_ge by (unfold len in *; lia).
    rewrite fmap_take, take_take, <- fmap_take.
    do 3 f_equal. unfold len in *. lia.
  - rewrite extend_long by lia.
    replace (Z.to_nat (N - len recs)) with 0%nat by lia.
    by rewrite take_0, app_nil_r.
Qed.

Lemma len_filter_app {A} (P : A → Prop) `{∀ x, Decision (P x)}
    (l k : list A) :
  len (filter P (l ++ k)) = len (filter P l) + len (filter P k).
Proof. by rewrite filter_app, len_app. Qed.

(** C10. Padding does not remove duplicates: whenever a short list
    holds an item that is also among the popularity items padding adds,
    the result holds that item once more than the list did; so a list
    without repetition that shares an item with the popularity list comes
    back with that item twice.  A list that already holds [N] entries or
    more comes back as it is, with nothing cut off. *)
Theorem padding_keeps_duplicates_and_long_lists :
  (∀ (self : MainRecommender) (recs : list (option Z)) (N x : Z),
     len recs < N →
     Some x ∈ recs →
     x ∈ slice_to (overall_top_purchases self) (N - len recs) →
     len (filter (λ y, y = Some x) recs)
     < len (filter (λ y, y = Some x)
              (_extend_with_top_popular self recs N)) ∧
     1 < len (filter (λ y, y = Some x)
                (_extend_with_top_popular self recs N))) ∧
  (∃ (self : MainRecommender) (recs : list (option Z)) (N x : Z),
     NoDup recs ∧
     NoDup (overall_top_purchases self) ∧
     len recs < N ∧
     Some x ∈ recs ∧
     x ∈ slice_to (overall_top_purchases self) N ∧
     len (filter (λ y, y = Some x) recs) = 1 ∧
     len (filter (λ y, y = Some x)
            (_extend_with_top_popular self recs N)) = 2) ∧
  (∀ (self : MainRecommender) (recs : list (option Z)) (N : Z),
     N ≤ len recs → _extend_with_top_popular self recs N = recs).
Proof.
  split; [|split].
  - intros self recs N x Hshort Hrecs Hpop.
    rewrite slice_to_nonneg in Hpop by lia.
    rewrite extend_exact, len_filter_app.
    assert (0 < len (filter (λ y, y = Some x) recs)) as Hone.
    { assert (Some x ∈ filter (λ y, y = Some x) recs) as Hin
        by (by apply list_elem_of_filter).
      destruct (filter (λ y, y = Some x) recs);
        [by apply elem_of_nil in Hin | unfold len; simpl; lia]. }
    assert (0 < len (filter (λ y, y = Some x)
                       (Some <$> take (Z.to_nat (N - len recs))
                                   (overall_top_purchases self)))) as Htwo.
    { assert (Some x ∈ filter (λ y, y = Some x)
                (Some <$> take (Z.to_nat (N - len recs))
                            (overall_top_purchases self))) as Hin.
      { apply list_elem_of_filter. split; [done|].
        apply list_elem_of_fmap. by exists x. }
      destruct (filter (λ y, y = Some x) (Some <$> _));
        [by apply elem_of_nil in Hin | unfold len; simpl; lia]. }
    lia.
  - exists shop_state, [Some 10], 3, 10.
    change (overall_top_purchases shop_state) with [10; 20].
    split; [apply NoDup_singleton|].
    split.
    { apply NoDup_cons. split; [|apply NoDup_singleton].
      intros Hin%list_elem_of_singleton. discriminate Hin. }
    split; [vm_compute; reflexivity|].
    split; [apply list_elem_of_here|].
    split; [apply list_elem_of_here|].
    split; vm_compute; reflexivity.
  - intros self recs N. apply extend_long.
Qed.

(** Four entries asked for three: all four come back. *)
Lemma padding_keeps_duplicates_and_long_lists_witness :
  3 ≤ len [Some 20; Some 10; Some 20; Some 30] ∧
  _extend_with_top_popular shop_state [Some 20; Some 10; Some 20; Some 30] 3
    = [Some 20; Some 10; Some 20; Some 30].
Proof.
  assert (3 ≤ len [Some 20; Some 10; Some 20; Some 30]) as Hlen
    by (vm_compute; discriminate).
  split; [exact Hlen|].
  exact (proj2 (proj2 padding_keeps_duplicates_and_long_lists)
           shop_state _ 3 Hlen).
Defined.

(** * The claim about the length of every result *)

Lemma get_recommendations_Ok (user : Z) (model : Model) (N : Z)
    (self self' : MainRecommender) (l : list (option Z)) :
  _get_recommendations user model N self = (self', Ok l) →
  len l = N ∧ Forall is_Some l.
Proof.
  unfold _get_recommendations. intros Hrun.
  apply bind_Ok in Hrun as ([] & s0 & _ & Hrun).
  apply bind_Ok in Hrun as (s & s1 & _ & Hrun).
  apply bind_Ok in Hrun as (userid & s2 & _ & Hrun).
  apply bind_Ok in Hrun as (unknown & s3 & _ & Hrun).
  apply bind_Ok in Hrun as (out & s4 & _ & Hrun).
  apply bind_Ok in Hrun as (ext & s5 & _ & Hrun).
  apply assert_len_Ok in Hrun as (_ & -> & Hlen).
  split; [done|].
  apply Forall_extend, Forall_fmap, Forall_true. intros x. by eexists.
Qed.

Lemma wrapper_Ok {A} (name : string) (inner : Z → Model → Z → M A)
    (user N : Z) (self self' : MainRecommender) (a : A) :
  (_update_dict user;; model ← getattr name; inner user model N) self
    = (self', Ok a) →
  ∃ model s, inner user model N s = (self', Ok a).
Proof.
  intros Hrun.
  apply bind_Ok in Hrun as ([] & s0 & _ & Hrun).
  apply bind_Ok in Hrun as (model & s1 & _ & Hrun). eauto.
Qed.

Lemma for_each_Ok {A B} (P : B → Prop) (f : A → M B) (l : list A)
    (self self' : MainRecommender) (ys : list B) :
  (∀ x s s' y, f x s = (s', Ok y) → P y) →
  for_each f l self = (self', Ok ys) → Forall P ys.
Proof.
  intros Hf. revert self ys.
  induction l as [|x l IH]; intros self ys; simpl.
  - run. intros [= _ <-]. constructor.
  - intros Hrun.
    apply bind_Ok in Hrun as (y & s0 & Hy & Hrun).
    apply bind_Ok in Hrun as (ys' & s1 & Hys & Hrun).
    run. injection Hrun as <- <-.
    constructor; [by eapply Hf | by eapply IH].
Qed.

Lemma Forall_concat {A} (P : A → Prop) (ls : list (list A)) :
  Forall (Forall P) ls → Forall P (concat ls).
Proof.
  induction 1 as [|l ls Hl _ IH]; simpl; [constructor|].
  apply Forall_app. by split.
Qed.

(** C1, as the code has it.  A recommendation request either returns a
    list of exactly [N] entries or raises; the entries are item ids,
    except that [get_similar_items_recommendation] may hold [None] for a
    purchase without a neighbour.  The exception is the length assertion
    or one that a lookup or the library raised. *)
Theorem request_returns_N_entries_or_raises (self : MainRecommender)
    (r : request) (user N : Z) :
  (∃ l, (recommendation_request r user N self).2 = Ok l ∧
        len l = N ∧
        (r ≠ SimilarItems → Forall is_Some l)) ∨
  (∃ e, (recommendation_request r user N self).2 = Raise e).
Proof.
  destruct (recommendation_request r user N self) as [self' [l|e]] eqn:Hrun;
    [left | right; by exists e].
  exists l. split; [done|].
  destruct r; simpl in Hrun;
    try (apply wrapper_Ok in Hrun as (model & s & Hrun);
         apply get_recommendations_Ok in Hrun as [Hlen Hall]; by split).
  - unfold get_similar_items_recommendation in Hrun.
    apply bind_Ok in Hrun as (s0 & s1 & _ & Hrun).
    apply bind_Ok in Hrun as (res & s2 & _ & Hrun).
    apply bind_Ok in Hrun as (s3 & s4 & _ & Hrun).
    apply assert_len_Ok in Hrun as (_ & -> & Hlen). by split.
  - unfold get_similar_users_recommendation in Hrun.
    apply bind_Ok in Hrun as (model & s0 & _ & Hrun).
    apply bind_Ok in Hrun as (s1 & s2 & _ & Hrun).
    apply bind_Ok in Hrun as (userid & s3 & _ & Hrun).
    apply bind_Ok in Hrun as (sims & s4 & _ & Hrun).
    apply bind_Ok in Hrun as (res & s5 & Hres & Hrun).
    apply bind_Ok in Hrun as (s6 & s7 & _ & Hrun).
    apply assert_len_Ok in Hrun as (_ & -> & Hlen).
    split; [done | intros _].
    apply Forall_extend, Forall_concat.
    eapply for_each_Ok; [|exact Hres].
    intros x s s' y Hy. simpl in Hy.
    apply wrapper_Ok in Hy as (m & s8 & Hy).
    by apply get_recommendations_Ok in Hy as [_ Hall].
Qed.

(** C1, as the claim has it, fails: [get_similar_users_recommendation]
    for a user the shop has never seen ends in the [KeyError] of
    [self.userid_to_id[user_id]], which is neither a list nor the
    assertion.  So does every [get_..._recommendations] call on a
    transaction table without the sentinel item, at
    [self.itemid_to_id[999999]]. *)
Lemma unknown_user_raises_key_error :
  1 ≤ 2 ∧
  call shop (recommendation_request SimilarUsers 99 2) = Raise KeyError ∧
  call (__init__ (table_library shop_model) [bought 1 10; bought 2 20] false)
       (recommendation_request Als 1 2) = Raise KeyError ∧
  ¬ ((∃ l, call shop (recommendation_request SimilarUsers 99 2) = Ok l ∧
           len l = 2) ∨
     call shop (recommendation_request SimilarUsers 99 2)
       = Raise AssertionError).
Proof.
  assert (call shop (recommendation_request SimilarUsers 99 2)
          = Raise KeyError) as Hrun by (vm_compute; reflexivity).
  split; [lia|]. split; [exact Hrun|].
  split; [vm_compute; reflexivity|].
  rewrite Hrun. intros [[l [Hl _]]|Hl]; discriminate.
Qed.

(** A request that returns: the result is not always an exception. *)
Example shop_als_request :
  call shop (recommendation_request Als 2 3) = Ok [Some 20; Some 10; Some 10].
Proof. vm_compute. reflexivity. Qed.

(** * The sentinel item *)

Lemma init_overall_excludes_unknown lib data weighting self :
  __init__ lib data weighting = Ok self →
  unknown_item ∉ overall_top_purchases self.
Proof.
  intros Hinit. apply init_fields in Hinit as (_ & -> & _).
  intros ([i c] & Hi & Hin)%list_elem_of_fmap.
  apply list_elem_of_filter in Hin as [Hne _]. simpl in *. congruence.
Qed.

Lemma init_top_excludes_unknown lib data weighting self :
  __init__ lib data weighting = Ok self →
  Forall (λ r, p_item r ≠ unknown_item) (top_purchases self).
Proof.
  intros Hinit. apply init_fields in Hinit as (-> & _).
  apply Forall_forall. intros r Hr.
  by apply list_elem_of_filter in Hr as [Hne _].
Qed.

Lemma lift_Ok {A} (r : res A) (self self' : MainRecommender) (a : A) :
  lift r self = (self', Ok a) → self' = self ∧ r = Ok a.
Proof. unfold lift. by intros [= <- ->]. Qed.

Lemma get_self_Ok (self self' s : MainRecommender) :
  get_self self = (self', Ok s) → self' = self ∧ s = self.
Proof. unfold get_self. by intros [= <- <-]. Qed.

(** With a library that honours [filter_items], item tables that are
    inverse to each other and a popularity list without the sentinel, no
    list that [_get_recommendations] returns holds the sentinel. *)
Lemma get_recommendations_excludes_unknown (self self' : MainRecommender)
    (user : Z) (model : Model) (N : Z) (l : list (option Z)) :
  honours_filter_items model →
  inverse_tables (itemid_to_id self) (id_to_itemid self) →
  unknown_item ∉ overall_top_purchases self →
  _get_recommendations user model N self = (self', Ok l) →
  Some unknown_item ∉ l.
Proof.
  intros Hlib [_ Hfrom] Hpop Hrun.
  unfold _get_recommendations in Hrun.
  apply bind_Ok in Hrun as ([] & s0 & Hupd & Hrun).
  pose proof (update_dict_frame self user) as Hframe.
  rewrite Hupd in Hframe.
  destruct Hframe as (_ & Hpop' & _ & Hid & Hitem & _). simpl in *.
  apply bind_Ok in Hrun as (s & s1 & [-> ->]%get_self_Ok & Hrun).
  apply bind_Ok in Hrun as (userid & s2 & [-> _]%lift_Ok & Hrun).
  apply bind_Ok in Hrun as (unknown & s3 & [-> Hunknown]%lift_Ok & Hrun).
  apply bind_Ok in Hrun as ([ids scores] & s4 & [-> Hrec]%lift_Ok & Hrun).
  apply bind_Ok in Hrun as (ext & s5 & [-> Hext]%lift_Ok & Hrun).
  apply assert_len_Ok in Hrun as (_ & -> & _).
  apply getitem_Ok in Hunknown. rewrite Hitem in Hunknown.
  simpl in Hext. rewrite Hid in Hext. apply res_map_Ok in Hext.
  assert (unknown_item ∉ ext) as Hnotin.
  { intros [j Hj]%list_elem_of_lookup.
    destruct (Forall2_lookup_r _ _ _ _ _ Hext Hj) as (rec & Hrec_j & Hget).
    apply getitem_Ok in Hget.
    destruct (Hfrom _ _ Hget) as (i & [= <-] & Hto).
    assert (rec = unknown) as -> by congruence.
    eapply Hlib; [exact Hrec | apply list_elem_of_here |].
    apply list_elem_of_lookup. by exists j. }
  unfold _extend_with_top_popular. rewrite Hpop'.
  assert (Some unknown_item ∉ Some <$> ext) as Hext'.
  { intros (x & [= <-] & Hx)%list_elem_of_fmap. done. }
  destruct (len (Some <$> ext) <? N); [|done].
  intros Hin%elem_of_slice_to. apply elem_of_app in Hin as [Hin|Hin]; [done|].
  apply list_elem_of_fmap in Hin as (x & [= <-] & Hx).
  by apply elem_of_slice_to in Hx.
Qed.

(** C6 at the kiosk.  The popularity list and the purchase list leave
    the sentinel out, yet [get_similar_items_recommendation] returns it:
    [_get_similar_item] passes no filter to [similar_items], and the
    nearest other item of item 0 is the sentinel. *)
Theorem similar_items_recommends_unknown_item :
  __init__ (table_library kiosk_model) kiosk_data false = Ok kiosk_state ∧
  (unknown_item ∉ overall_top_purchases kiosk_state) ∧
  Forall (λ r, p_item r ≠ unknown_item) (top_purchases kiosk_state) ∧
  similar_items kiosk_model 0 2 = Ok [(0, one); (1, half)] ∧
  get_similar_items_recommendation 1 1 kiosk_state
    = (kiosk_state, Ok [Some unknown_item]).
Proof.
  pose proof kiosk_constructed as Hinit.
  split; [exact Hinit|].
  split; [by eapply init_overall_excludes_unknown|].
  split; [by eapply init_top_excludes_unknown|].
  split; vm_compute; reflexivity.
Qed.

(** * The similarity recommenders *)

(** C7 fails on the code.  [_get_similar_item] compares the internal
    index [rec[0]] with the external [item_id].  When the library lists
    the queried item first and its index is not the same number as its
    id, the test lets the queried item through and the method returns
    it, whatever other neighbours follow. *)
Theorem similar_item_returns_queried_item (self : MainRecommender)
    (model : Model) (item_id idx : Z) (score : float)
    (rest : list (Z * float)) :
  model_attrs self !! "model" = Some model →
  itemid_to_id self !! KInt item_id = Some idx →
  id_to_itemid self !! KInt idx = Some item_id →
  idx ≠ item_id →
  similar_items model idx 2 = Ok ((idx, score) :: rest) →
  _get_similar_item item_id self = (self, Ok (Some item_id)).
Proof.
  intros Hmodel Hidx Hitem Hne Hsim.
  unfold _get_similar_item. run. rewrite Hmodel. simpl.
  unfold getitem at 1. rewrite Hidx. simpl. rewrite Hsim. simpl.
  rewrite bool_decide_eq_true_2 by done.
  unfold getitem. by rewrite Hitem.
Qed.

(** Item 10 of the shop has index 0; its top-2 neighbours are itself and
    index 1, which is item 20.  The method returns 10. *)
Lemma similar_item_returns_queried_item_witness :
  similar_items shop_model 0 2 = Ok [(0, one); (1, half)] ∧
  id_to_itemid shop_state !! KInt 1 = Some 20 ∧
  _get_similar_item 10 shop_state = (shop_state, Ok (Some 10)).
Proof.
  assert (similar_items shop_model 0 2 = Ok [(0, one); (1, half)]) as Hsim
    by (vm_compute; reflexivity).
  split; [exact Hsim|]. split; [vm_compute; reflexivity|].
  refine (similar_item_returns_queried_item shop_state shop_model 10 0 one
            [(1, half)] _ _ _ _ Hsim).
  - vm_compute. reflexivity.
  - vm_compute. reflexivity.
  - vm_compute. reflexivity.
  - discriminate.
Defined.

Lemma inverse_tables_no_str_key (to_id id_to : gmap pykey Z) (s : string) :
  inverse_tables to_id id_to → id_to !! KStr s = None.
Proof.
  intros [_ Hfrom]. destruct (id_to !! KStr s) as [e|] eqn:Hs; [|done].
  by destruct (Hfrom _ _ Hs) as (i & [=] & _).
Qed.

(** With integer keys only, the comprehension over [similar_users] keeps
    nobody. *)
Lemma no_similar_user_kept (d : gmap pykey Z) (sims : list (Z * float)) :
  (∀ s, d !! KStr s = None) →
  (rec ← sims;
   match d !! KStr (str rec.1) with
   | Some u => [u]
   | None => []
   end) = [].
Proof.
  intros Hd. induction sims as [|rec sims IH]; [done|].
  by rewrite bind_cons, Hd, IH.
Qed.

(** C8 fails on the code.  [id_to_userid] is keyed by integers and the
    method looks up [str(rec[0])], so no similar user is ever kept: after
    construction and any run of [_update_dict] calls the method returns
    the padding of the empty list, the top-[N] popularity items, whatever
    users the library found. *)
Theorem similar_users_are_never_used lib data weighting
    (self : MainRecommender) (users : list Z) (user N : Z) :
  __init__ lib data weighting = Ok self →
  get_similar_users_recommendation user N (after_updates self users) =
    (after_updates self users,
     match model_attrs (after_updates self users) !! "model" with
     | None => Raise AttributeError
     | Some model =>
         match userid_to_id (after_updates self users) !! KInt user with
         | None => Raise KeyError
         | Some userid =>
             match similar_users model userid (N + 1) with
             | Raise e => Raise e
             | Ok _ =>
                 let res :=
                   _extend_with_top_popular (after_updates self users) [] N in
                 if bool_decide (len res = N) then Ok res
                 else Raise AssertionError
             end
         end
     end).
Proof.
  intros Hinit.
  destruct (after_updates_tables_bijective self users
              (init_tables_bijective _ _ _ _ Hinit)) as [Husers _].
  set (self' := after_updates self users) in *.
  pose proof (λ sims, no_similar_user_kept (id_to_userid self') sims
                (λ s, inverse_tables_no_str_key _ _ s Husers)) as Hnone.
  unfold get_similar_users_recommendation. run.
  destruct (model_attrs self' !! "model") as [model|]; [simpl|done].
  unfold getitem.
  destruct (userid_to_id self' !! KInt user) as [userid|]; [simpl|done].
  destruct (similar_users model userid (N + 1)) as [sims|e]; [simpl|done].
  rewrite Hnone. simpl. by case_bool_decide.
Qed.

(** User 1 of the shop: the library names user index 1 (user 2) as
    similar; the two recommendations are the two popular items. *)
Lemma similar_users_are_never_used_witness :
  similar_users shop_model 0 3 = Ok [(0, one); (1, half)] ∧
  get_similar_users_recommendation 1 2 shop_state
    = (shop_state, Ok [Some 10; Some 20]).
Proof.
  split; [vm_compute; reflexivity|].
  assert (__init__ (table_library shop_model) shop_data false = Ok shop_state)
    as Hinit by (vm_compute; reflexivity).
  pose proof (similar_users_are_never_used _ _ _ shop_state [] 1 2 Hinit)
    as Hrun.
  change (after_updates shop_state []) with shop_state in Hrun.
  rewrite Hrun. vm_compute. reflexivity.
Defined.

(** * The score entry points *)

(** C9 fails on the code.  [get_als_scores] reads [self.model_als], an
    attribute [__init__] never assigns (the factorization model is
    [self.model]).  After construction and any run of [_update_dict]
    calls the method returns no list: it raises [AttributeError], or the
    [ValueError] of [_update_dict] when the user table is empty. *)
Theorem get_als_scores_always_raises lib data weighting
    (self : MainRecommender) (users : list Z) (user N : Z) :
  __init__ lib data weighting = Ok self →
  (get_als_scores user N (after_updates self users)).2 = Raise AttributeError ∨
  (dict_values (userid_to_id (after_updates self users)) = [] ∧
   (get_als_scores user N (after_updates self users)).2 = Raise ValueError).
Proof.
  intros Hinit.
  assert (model_attrs (after_updates self users) !! "model_als" = None)
    as Hattr.
  { destruct (after_updates_frame self users) as (_ & _ & _ & _ & _ & ->).
    by apply init_fields in Hinit as (_ & _ & _ & ?). }
  set (self' := after_updates self users) in *.
  assert (∀ s, _update_dict user self' = (s, Ok tt) →
               (get_als_scores user N self').2 = Raise AttributeError)
    as Hok.
  { intros s Hupd.
    pose proof (update_dict_frame self' user) as Hframe.
    rewrite Hupd in Hframe. destruct Hframe as (_ & _ & _ & _ & _ & Hs).
    unfold get_als_scores. run. rewrite Hupd. simpl. by rewrite Hs, Hattr. }
  destruct (update_dict_cases self' user)
    as [[_ Hupd]|[[m (_ & _ & Hupd)]|[Hnil Hupd]]].
  - left. by eapply Hok.
  - left. by eapply Hok.
  - right. split; [done|]. unfold get_als_scores. run. by rewrite Hupd.
Qed.

Lemma get_als_scores_always_raises_witness :
  (get_als_scores 1 2 shop_state).2 = Raise AttributeError ∧
  (get_als_recommendations 1 2 shop_state).2 = Ok [Some 10; Some 10].
Proof.
  assert (__init__ (table_library shop_model) shop_data false = Ok shop_state)
    as Hinit by (vm_compute; reflexivity).
  split; [|vm_compute; reflexivity].
  pose proof (get_als_scores_always_raises _ _ _ shop_state [] 1 2 Hinit)
    as Hrun.
  change (after_updates shop_state []) with shop_state in Hrun.
  destruct Hrun as [Hattr|[Hnil _]]; [exact Hattr|].
  vm_compute in Hnil. discriminate Hnil.
Defined.

(** * Further properties of [_update_dict] *)

Lemma bare_constructed :
  __init__ (table_library shop_model) [] false = Ok bare_state.
Proof. vm_compute. reflexivity. Qed.

(** On an empty user table [_update_dict] ends in the [ValueError] of
    [max] of no values, and so does every recommendation and score
    wrapper, before it reads a model or calls the library; the instance
    stays as it was. *)
Theorem empty_user_table_raises_value_error (self : MainRecommender)
    (user N : Z) :
  dict_values (userid_to_id self) = [] →
  _update_dict user self = (self, Raise ValueError) ∧
  Forall (λ entry : Z → Z → M (list (option Z)),
            entry user N self = (self, Raise ValueError))
    [get_als_recommendations; get_bm25_recommendations;
     get_tfidf_recommendations; get_cosine_recommendations;
     get_own_recommendations] ∧
  Forall (λ entry : Z → Z → M (list float),
            entry user N self = (self, Raise ValueError))
    [get_als_scores; get_bm25_scores; get_tfidf_scores;
     get_cosine_scores; get_own_scores].
Proof.
  intros Hnil. pose proof (update_dict_empty self user Hnil) as Hupd.
  split; [exact Hupd|].
  split; repeat constructor;
    match goal with |- ?entry _ _ _ = _ => unfold entry end;
    run; by rewrite Hupd.
Qed.

Lemma empty_user_table_raises_value_error_witness :
  dict_values (userid_to_id bare_state) = [] ∧
  get_bm25_recommendations 5 3 bare_state = (bare_state, Raise ValueError).
Proof.
  assert (dict_values (userid_to_id bare_state) = []) as Hnil
    by (vm_compute; reflexivity).
  split; [exact Hnil|].
  pose proof (proj1 (proj2
    (empty_user_table_raises_value_error bare_state 5 3 Hnil))) as Hall.
  apply Forall_cons in Hall as [_ Hall].
  by apply Forall_cons in Hall as [Hbm25 _].
Defined.

(** A second [_update_dict] call for the same user changes nothing: two
    calls in a row end like one. *)
Theorem update_dict_twice_is_once (self : MainRecommender) (user : Z) :
  (_update_dict user;; _update_dict user) self = _update_dict user self.
Proof.
  run. destruct (_update_dict user self) as [s [[]|e]] eqn:Hupd; [|done].
  apply update_dict_known. by apply (update_dict_knows self).
Qed.

Lemma py_max_insert_next (d : gmap pykey Z) (k : pykey) (m : Z) :
  py_max (dict_values d) = Ok m →
  d !! k = None →
  py_max (dict_values (<[k := m + 1]> d)) = Ok (m + 1).
Proof.
  intros [_ Hle]%py_max_Ok Hk.
  destruct (py_max (dict_values (<[k := m + 1]> d))) as [m'|e] eqn:Hmax.
  - apply py_max_Ok in Hmax as [Hin Hle']. f_equal.
    assert (m + 1 ≤ m') as Hge.
    { apply Hle'. apply elem_of_dict_values. exists k.
      apply lookup_insert_eq. }
    apply elem_of_dict_values in Hin as [k' Hk'].
    destruct (decide (k' = k)) as [->|Hne].
    + rewrite lookup_insert_eq in Hk'. congruence.
    + rewrite lookup_insert_ne in Hk' by done.
      assert (m' ≤ m); [|lia].
      apply Hle. apply elem_of_dict_values. by exists k'.
  - apply py_max_Raise in Hmax as [Hnil _].
    apply dict_values_nil in Hnil.
    apply (f_equal (λ d, d !! k)) in Hnil.
    by rewrite lookup_insert_eq, lookup_empty in Hnil.
Qed.

(** Two new users in a row get consecutive indices, in both tables. *)
Theorem two_new_users_get_consecutive_indices (self : MainRecommender)
    (user1 user2 max_id : Z) :
  py_max (dict_values (userid_to_id self)) = Ok max_id →
  userid_to_id self !! KInt user1 = None →
  userid_to_id self !! KInt user2 = None →
  user1 ≠ user2 →
  ∃ self',
    (_update_dict user1;; _update_dict user2) self = (self', Ok tt) ∧
    userid_to_id self' =
      <[KInt user2 := max_id + 2]>
        (<[KInt user1 := max_id + 1]> (userid_to_id self)) ∧
    id_to_userid self' =
      <[KInt (max_id + 2) := user2]>
        (<[KInt (max_id + 1) := user1]> (id_to_userid self)).
Proof.
  intros Hmax Hu1 Hu2 Hne.
  eexists. split.
  - run. rewrite (update_dict_new self user1 max_id Hu1 Hmax). simpl.
    rewrite (update_dict_new _ user2 (max_id + 1)); simpl.
    + reflexivity.
    + rewrite lookup_insert_ne; [done | congruence].
    + by apply py_max_insert_next.
  - simpl. by replace (max_id + 1 + 1) with (max_id + 2) by lia.
Qed.

(** Users 7 and 8 join the shop, whose largest index is 1. *)
Lemma two_new_users_get_consecutive_indices_witness :
  py_max (dict_values (userid_to_id shop_state)) = Ok 1 ∧
  ∃ self',
    (_update_dict 7;; _update_dict 8) shop_state = (self', Ok tt) ∧
    userid_to_id self' !! KInt 7 = Some 2 ∧
    userid_to_id self' !! KInt 8 = Some 3.
Proof.
  assert (py_max (dict_values (userid_to_id shop_state)) = Ok 1) as Hmax
    by (vm_compute; reflexivity).
  split; [exact Hmax|].
  destruct (two_new_users_get_consecutive_indices shop_state 7 8 1 Hmax)
    as (self' & Hrun & Hto & _).
  - vm_compute. reflexivity.
  - vm_compute. reflexivity.
  - discriminate.
  - exists self'. split; [exact Hrun|]. rewrite Hto. split.
    + rewrite lookup_insert_ne by discriminate. apply lookup_insert_eq.
    + apply lookup_insert_eq.
Defined.

(** After construction and any run of [_update_dict] calls, a call that
    returns leaves the user with an index that leads back to the user:
    [id_to_userid[userid_to_id[user]] == user]. *)
Theorem registered_user_round_trip lib data weighting
    (self self' : MainRecommender) (users : list Z) (user : Z) :
  __init__ lib data weighting = Ok self →
  _update_dict user (after_updates self users) = (self', Ok tt) →
  ∃ i, userid_to_id self' !! KInt user = Some i ∧
       id_to_userid self' !! KInt i = Some user.
Proof.
  intros Hinit Hupd.
  pose proof (after_updates_tables_bijective self users
                (init_tables_bijective _ _ _ _ Hinit)) as [Husers _].
  pose proof (update_dict_preserves_inverse _ user Husers) as [Hto _].
  rewrite Hupd in Hto. simpl in Hto.
  destruct (update_dict_knows _ _ _ Hupd) as [i Hi].
  exists i. split; [done|].
  by destruct (Hto _ _ Hi) as (e & [= <-] & He).
Qed.

Lemma registered_user_round_trip_witness :
  __init__ (table_library shop_model) shop_data false = Ok shop_state ∧
  ∃ self' i,
    _update_dict 42 (after_updates shop_state [7; 2]) = (self', Ok tt) ∧
    userid_to_id self' !! KInt 42 = Some i ∧
    id_to_userid self' !! KInt i = Some 42.
Proof.
  assert (__init__ (table_library shop_model) shop_data false = Ok shop_state)
    as Hinit by (vm_compute; reflexivity).
  split; [exact Hinit|].
  destruct (_update_dict 42 (after_updates shop_state [7; 2]))
    as [self' [[]|e]] eqn:Hupd.
  - destruct (registered_user_round_trip _ _ _ shop_state self' [7; 2] 42
                Hinit Hupd) as (i & Hto & Hfrom).
    by exists self', i.
  - exfalso. vm_compute in Hupd. discriminate Hupd.
Defined.

Lemma update_dict_keeps_entries (self : MainRecommender) (user : Z) :
  inverse_tables (userid_to_id self) (id_to_userid self) →
  (∀ k i, userid_to_id self !! k = Some i →
          userid_to_id (_update_dict user self).1 !! k = Some i) ∧
  (∀ k e, id_to_userid self !! k = Some e →
          id_to_userid (_update_dict user self).1 !! k = Some e).
Proof.
  intros [Hto Hfrom].
  destruct (update_dict_cases self user)
    as [[_ ->]|[[m (Hu & Hmax & ->)]|[_ ->]]]; [done| |done].
  simpl. apply py_max_Ok in Hmax as [_ Hle]. split.
  - intros k i Hk. rewrite lookup_insert_ne; [done|].
    intros <-. by rewrite Hu in Hk.
  - intros k e Hk. rewrite lookup_insert_ne; [done|].
    intros <-. destruct (Hfrom _ _ Hk) as (i & [= <-] & Hi).
    assert (m + 1 ≤ m); [|lia].
    apply Hle. apply elem_of_dict_values. by eexists.
Qed.

Lemma after_updates_keeps_entries (self : MainRecommender) (users : list Z) :
  inverse_tables (userid_to_id self) (id_to_userid self) →
  (∀ k i, userid_to_id self !! k = Some i →
          userid_to_id (after_updates self users) !! k = Some i) ∧
  (∀ k e, id_to_userid self !! k = Some e →
          id_to_userid (after_updates self users) !! k = Some e).
Proof.
  unfold after_updates. revert self.
  induction users as [|user users IH]; intros self Hinv; [done|].
  simpl.
  destruct (update_dict_keeps_entries self user Hinv) as [Hto Hfrom].
  destruct (IH _ (update_dict_preserves_inverse self user Hinv))
    as [IHto IHfrom].
  split; eauto.
Qed.

Lemma after_updates_app (self : MainRecommender) (users1 users2 : list Z) :
  after_updates self (users1 ++ users2)
  = after_updates (after_updates self users1) users2.
Proof. unfold after_updates. apply foldl_app. Qed.

(** An index, once given, stays: whatever entries [userid_to_id] and
    [id_to_userid] hold at some point after construction, whether built
    by [__init__] or added by an earlier [_update_dict] call, no further
    run of [_update_dict] calls changes or removes them. *)
Theorem indices_are_never_reassigned lib data weighting
    (self : MainRecommender) (users1 users2 : list Z) :
  __init__ lib data weighting = Ok self →
  (∀ k i, userid_to_id (after_updates self users1) !! k = Some i →
          userid_to_id (after_updates self (users1 ++ users2)) !! k
            = Some i) ∧
  (∀ k e, id_to_userid (after_updates self users1) !! k = Some e →
          id_to_userid (after_updates self (users1 ++ users2)) !! k
            = Some e).
Proof.
  intros Hinit. rewrite after_updates_app.
  apply after_updates_keeps_entries.
  by destruct (after_updates_tables_bijective self users1
                 (init_tables_bijective _ _ _ _ Hinit)).
Qed.

(** User 7 joins the shop with index 2 and keeps it when users 2, 8 and
    7 again come by. *)
Lemma indices_are_never_reassigned_witness :
  __init__ (table_library shop_model) shop_data false = Ok shop_state ∧
  userid_to_id (after_updates shop_state [7]) !! KInt 7 = Some 2 ∧
  userid_to_id (after_updates shop_state ([7] ++ [2; 8; 7])) !! KInt 7
    = Some 2.
Proof.
  assert (__init__ (table_library shop_model) shop_data false = Ok shop_state)
    as Hinit by (vm_compute; reflexivity).
  assert (userid_to_id (after_updates shop_state [7]) !! KInt 7 = Some 2)
    as Hnew by (vm_compute; reflexivity).
  split; [exact Hinit|]. split; [exact Hnew|].
  exact (proj1 (indices_are_never_reassigned _ _ _ shop_state [7] [2; 8; 7]
                  Hinit) _ _ Hnew).
Defined.

(** * Further properties of [_prepare_dicts], [_prepare_matrix] and
    [__init__] *)

Lemma dict_zip_numbers (ids : list Z) :
  NoDup ids →
  (∀ (j : nat) e, ids !! j = Some e ↔
     dict_zip (KInt <$> ids) (arange (length ids)) !! KInt e
       = Some (Z.of_nat j)) ∧
  (∀ (j : nat) e, ids !! j = Some e ↔
     dict_zip (KInt <$> arange (length ids)) ids !! KInt (Z.of_nat j)
       = Some e).
Proof.
  intros Hnd.
  assert (NoDup (KInt <$> ids)) as Hk
    by (apply NoDup_fmap_2; [by intros ?? [=] | done]).
  pose proof (NoDup_arange (length ids)) as Ha.
  split; intros j e.
  - rewrite (dict_zip_lookup _ _ _ _ Hk). split.
    + intros Hj. exists j. rewrite list_lookup_fmap, Hj. split; [done|].
      apply arange_lookup. split; [done|]. by apply lookup_lt_Some in Hj.
    + intros (n & Hn & Hi). apply arange_lookup in Hi as [Hi _].
      apply Nat2Z.inj in Hi. subst n.
      rewrite list_lookup_fmap, fmap_Some in Hn.
      by destruct Hn as (e' & He' & [= ->]).
  - rewrite (dict_zip_lookup _ _ _ _ Ha). split.
    + intros Hj. exists j. split; [|done].
      rewrite list_lookup_fmap.
      assert (arange (length ids) !! j = Some (Z.of_nat j)) as ->; [|done].
      apply arange_lookup. split; [done|]. by apply lookup_lt_Some in Hj.
    + intros (n & Hn & He).
      rewrite list_lookup_fmap, fmap_Some in Hn.
      destruct Hn as (i & Hi & [= Heq]).
      apply arange_lookup in Hi as [-> _].
      apply Nat2Z.inj in Heq. by subst n.
Qed.

(** [_prepare_dicts] numbers the labels by position: with distinct row
    labels and distinct column labels, a label is at position [j] exactly
    when the forward table sends it to [j], and exactly when the backward
    table sends [j] to it. *)
Theorem prepare_dicts_number_the_labels (df : DataFrame) :
  NoDup (index df) →
  NoDup (columns df) →
  let '(id_to_itemid, id_to_userid, itemid_to_id, userid_to_id) :=
    _prepare_dicts df in
  (∀ (j : nat) u, index df !! j = Some u ↔
                  userid_to_id !! KInt u = Some (Z.of_nat j)) ∧
  (∀ (j : nat) u, index df !! j = Some u ↔
                  id_to_userid !! KInt (Z.of_nat j) = Some u) ∧
  (∀ (j : nat) i, columns df !! j = Some i ↔
                  itemid_to_id !! KInt i = Some (Z.of_nat j)) ∧
  (∀ (j : nat) i, columns df !! j = Some i ↔
                  id_to_itemid !! KInt (Z.of_nat j) = Some i).
Proof.
  intros Hrows Hcols. unfold _prepare_dicts.
  destruct (dict_zip_numbers _ Hrows) as [Hu1 Hu2].
  destruct (dict_zip_numbers _ Hcols) as [Hi1 Hi2]. done.
Qed.

Lemma prepare_dicts_number_the_labels_witness :
  NoDup (index (_prepare_matrix shop_data)) ∧
  ∀ (j : nat) u,
    index (_prepare_matrix shop_data) !! j = Some u ↔
    userid_to_id shop_state !! KInt u = Some (Z.of_nat j).
Proof.
  assert (NoDup (index (_prepare_matrix shop_data))) as Hrows
    by (vm_compute; apply NoDup_ListNoDup; repeat constructor;
        simpl; intuition discriminate).
  assert (NoDup (columns (_prepare_matrix shop_data))) as Hcols
    by (vm_compute; apply NoDup_ListNoDup; repeat constructor;
        simpl; intuition discriminate).
  split; [exact Hrows|].
  pose proof (prepare_dicts_number_the_labels _ Hrows Hcols) as Hnum.
  assert (_prepare_dicts (_prepare_matrix shop_data) =
          (id_to_itemid shop_state, id_to_userid shop_state,
           itemid_to_id shop_state, userid_to_id shop_state)) as Heq
    by (vm_compute; reflexivity).
  rewrite Heq in Hnum. exact (proj1 Hnum).
Defined.

Lemma Sorted_sorted_unique (l : list Z) : Sorted Z.le (sorted_unique l).
Proof. unfold sorted_unique. apply Sorted_merge_sort, _. Qed.

Lemma elem_of_column {A} (f : A → Z) (data : list A) (x : Z) :
  x ∈ sorted_unique (f <$> data) ↔ ∃ r, r ∈ data ∧ f r = x.
Proof.
  rewrite elem_of_sorted_unique, list_elem_of_fmap.
  split; intros (r & H1 & H2); exists r; by split.
Qed.

(** The pivot table of [_prepare_matrix]: the row labels are the user
    ids of the transaction table and the column labels its item ids, each
    in ascending order without repetition; there is a row of cells for
    every row label and a cell for every column label in each row; the
    cell of a user and an item is the number of their records. *)
Theorem prepare_matrix_labels_and_shape (data : list interaction) :
  NoDup (index (_prepare_matrix data)) ∧
  Sorted Z.le (index (_prepare_matrix data)) ∧
  (∀ u, u ∈ index (_prepare_matrix data) ↔ ∃ r, r ∈ data ∧ user_id r = u) ∧
  NoDup (columns (_prepare_matrix data)) ∧
  Sorted Z.le (columns (_prepare_matrix data)) ∧
  (∀ i, i ∈ columns (_prepare_matrix data) ↔
        ∃ r, r ∈ data ∧ item_id r = i) ∧
  length (values (_prepare_matrix data))
    = length (index (_prepare_matrix data)) ∧
  Forall (λ row, length row = length (columns (_prepare_matrix data)))
    (values (_prepare_matrix data)) ∧
  (∀ (j k : nat) u i,
     index (_prepare_matrix data) !! j = Some u →
     columns (_prepare_matrix data) !! k = Some i →
     values (_prepare_matrix data) !! j ≫= (λ row, row !! k)
       = Some (float_of_count (count_if (same_pair u i) data))).
Proof.
  unfold _prepare_matrix. simpl.
  split; [apply NoDup_sorted_unique|].
  split; [apply Sorted_sorted_unique|].
  split; [apply elem_of_column|].
  split; [apply NoDup_sorted_unique|].
  split; [apply Sorted_sorted_unique|].
  split; [apply elem_of_column|].
  split; [by rewrite length_fmap|].
  split.
  - apply Forall_fmap, Forall_true. intros u. simpl. by rewrite length_fmap.
  - intros j k u i Hj Hk.
    rewrite list_lookup_fmap, Hj. simpl.
    by rewrite list_lookup_fmap, Hk.
Qed.

Lemma StronglySorted_filter {A} (R : relation A) (P : A → Prop)
    `{∀ x, Decision (P x)} (l : list A) :
  StronglySorted R l → StronglySorted R (filter P l).
Proof.
  induction 1 as [|x l Hsorted IH Hall]; [constructor|].
  rewrite filter_cons. destruct (decide (P x)); [|done].
  constructor; [done|].
  apply Forall_forall. intros y [_ Hy]%list_elem_of_filter.
  by eapply Forall_forall in Hall.
Qed.

Lemma StronglySorted_lookup {A} (R : relation A) (l : list A)
    (j k : nat) (a b : A) :
  StronglySorted R l → (j < k)%nat →
  l !! j = Some a → l !! k = Some b → R a b.
Proof.
  intros Hsorted. revert j k.
  induction Hsorted as [|x l Hsorted IH Hall]; intros j k Hjk Hj Hk;
    [done|].
  destruct k as [|k]; [lia|]. simpl in Hk.
  destruct j as [|j]; simpl in Hj.
  - injection Hj as ->. eapply Forall_forall in Hall; [done|].
    by eapply list_elem_of_lookup_2.
  - apply (IH j k); [lia|done|done].
Qed.

#[local] Instance desc_by_transitive {A} (qty : A → Z) :
  Transitive (desc_by qty).
Proof. intros a b c. unfold desc_by. lia. Qed.

#[local] Instance desc_by_total {A} (qty : A → Z) : Total (desc_by qty).
Proof. intros a b. unfold desc_by. lia. Qed.

Lemma sort_values_desc_sorted {A} (qty : A → Z) (rows : list A) :
  StronglySorted (desc_by qty) (sort_values_desc qty rows).
Proof. unfold sort_values_desc. apply StronglySorted_merge_sort; apply _. Qed.

Lemma elem_of_sort_values_desc {A} (qty : A → Z) (rows : list A) (r : A) :
  r ∈ sort_values_desc qty rows ↔ r ∈ rows.
Proof. unfold sort_values_desc. by rewrite merge_sort_Permutation. Qed.

Lemma count_if_pos {A} (p : A → bool) (l : list A) :
  0 < count_if p l ↔ ∃ x, x ∈ l ∧ p x = true.
Proof.
  unfold count_if, len. split.
  - destruct (filter p l) as [|x l'] eqn:Hf; simpl; [lia|]. intros _.
    assert (x ∈ filter p l) as Hx by (rewrite Hf; apply list_elem_of_here).
    apply list_elem_of_filter in Hx as [Hp Hx].
    exists x. split; [done|]. by apply Is_true_true.
  - intros (x & Hx & Hp).
    assert (x ∈ filter p l) as Hin.
    { apply list_elem_of_filter. split; [by apply Is_true_true|done]. }
    destruct (filter p l); [by apply elem_of_nil in Hin|]. simpl. lia.
Qed.

(** The popularity list after construction holds every item id of the
    transaction table except the sentinel, each once, an item with more
    records never after one with fewer. *)
Theorem popularity_list_ranks_the_items lib data weighting
    (self : MainRecommender) :
  __init__ lib data weighting = Ok self →
  NoDup (overall_top_purchases self) ∧
  (∀ i, i ∈ overall_top_purchases self ↔
        i ≠ unknown_item ∧ ∃ r, r ∈ data ∧ item_id r = i) ∧
  (∀ (j k : nat) a b,
     (j < k)%nat →
     overall_top_purchases self !! j = Some a →
     overall_top_purchases self !! k = Some b →
     count_if (λ r, bool_decide (item_id r = b)) data
     ≤ count_if (λ r, bool_decide (item_id r = a)) data).
Proof.
  intros Hinit. apply init_fields in Hinit as (_ & -> & _).
  set (cnt := λ i, count_if (λ r, bool_decide (item_id r = i)) data).
  assert (∀ row, row ∈ filter (λ r : Z * Z, r.1 ≠ unknown_item)
                         (sort_values_desc snd (groupby_item_count data)) →
                 row.1 ≠ unknown_item ∧ row.2 = cnt row.1 ∧
                 ∃ r, r ∈ data ∧ item_id r = row.1) as Hrows.
  { intros row [Hne Hrow]%list_elem_of_filter.
    apply elem_of_sort_values_desc in Hrow.
    unfold groupby_item_count in Hrow.
    apply list_elem_of_fmap in Hrow as (i & -> & Hi).
    apply elem_of_column in Hi. done. }
  split; [|split].
  - eapply sublist_NoDup;
      [|apply fmap_sublist, sublist_filter].
    unfold sort_values_desc. rewrite merge_sort_Permutation.
    unfold groupby_item_count.
    assert (∀ (g : Z → Z) (l : list Z), fst <$> ((λ i, (i, g i)) <$> l) = l)
      as Hfst
      by (intros g l; induction l as [|x l IH]; [done|];
          rewrite !fmap_cons, IH; done).
    rewrite Hfst. apply NoDup_sorted_unique.
  - intros i. rewrite list_elem_of_fmap. split.
    + intros (row & -> & Hrow). by destruct (Hrows row Hrow) as (? & _ & ?).
    + intros (Hne & r & Hr & Hi). exists (i, cnt i). split; [done|].
      apply list_elem_of_filter. split; [done|].
      apply elem_of_sort_values_desc. unfold groupby_item_count.
      apply list_elem_of_fmap. exists i. split; [done|].
      apply elem_of_column. by exists r.
  - intros j k a b Hjk Hj Hk.
    rewrite list_lookup_fmap, fmap_Some in Hj, Hk.
    destruct Hj as (ra & Hj & ->). destruct Hk as (rb & Hk & ->).
    destruct (Hrows ra (list_elem_of_lookup_2 _ _ _ Hj)) as (_ & Ha & _).
    destruct (Hrows rb (list_elem_of_lookup_2 _ _ _ Hk)) as (_ & Hb & _).
    fold (cnt ra.1) (cnt rb.1). rewrite <- Ha, <- Hb.
    eapply (StronglySorted_lookup (desc_by snd)); [|exact Hjk|exact Hj|exact Hk].
    apply StronglySorted_filter, sort_values_desc_sorted.
Qed.

Lemma popularity_list_ranks_the_items_witness :
  __init__ (table_library shop_model) shop_data false = Ok shop_state ∧
  NoDup (overall_top_purchases shop_state) ∧
  (20 ∈ overall_top_purchases shop_state ↔
   20 ≠ unknown_item ∧ ∃ r, r ∈ shop_data ∧ item_id r = 20).
Proof.
  assert (__init__ (table_library shop_model) shop_data false = Ok shop_state)
    as Hinit by (vm_compute; reflexivity).
  split; [exact Hinit|].
  destruct (popularity_list_ranks_the_items _ _ _ _ Hinit)
    as (Hnodup & Hmem & _).
  split; [exact Hnodup | exact (Hmem 20)].
Defined.

Lemma groupby_user_item_count_rows (data : list interaction) :
  NoDup (groupby_user_item_count data) ∧
  ∀ row, row ∈ groupby_user_item_count data ↔
         0 < p_quantity row ∧
         p_quantity row
           = count_if (same_pair (p_user row) (p_item row)) data.
Proof.
  assert (∀ u i row,
            row ∈ (if 0 <? count_if (same_pair u i) data
                   then [ {| p_user := u; p_item := i;
                             p_quantity := count_if (same_pair u i) data |} ]
                   else []) →
            p_user row = u ∧ p_item row = i ∧
            0 < p_quantity row ∧
            p_quantity row = count_if (same_pair u i) data) as Hcell.
  { intros u i row Hrow.
    destruct (Z.ltb_spec 0 (count_if (same_pair u i) data));
      [|by apply elem_of_nil in Hrow].
    by apply list_elem_of_singleton in Hrow as ->. }
  split.
  - unfold groupby_user_item_count. apply NoDup_bind.
    + intros u1 u2 row _ _ Hrow1 Hrow2.
      apply list_elem_of_bind in Hrow1 as (i1 & Hrow1 & _).
      apply list_elem_of_bind in Hrow2 as (i2 & Hrow2 & _).
      apply Hcell in Hrow1 as (<- & _). by apply Hcell in Hrow2 as (<- & _).
    + intros u _. apply NoDup_bind.
      * intros i1 i2 row _ _ Hrow1 Hrow2.
        apply Hcell in Hrow1 as (_ & <- & _).
        by apply Hcell in Hrow2 as (_ & <- & _).
      * intros i _. destruct (0 <? count_if (same_pair u i) data);
          [apply NoDup_singleton | apply NoDup_nil_2].
      * apply NoDup_sorted_unique.
    + apply NoDup_sorted_unique.
  - intros row. unfold groupby_user_item_count.
    rewrite list_elem_of_bind. split.
    + intros (u & Hrow & Hu).
      apply list_elem_of_bind in Hrow as (i & Hrow & Hi).
      by apply Hcell in Hrow as (-> & -> & ? & ?).
    + intros [Hpos Hqty]. destruct row as [u i q]. simpl in *. subst q.
      destruct (proj1 (count_if_pos _ _) Hpos) as (r & Hr & Hpair).
      unfold same_pair in Hpair.
      apply andb_true_iff in Hpair
        as [Hu%bool_decide_eq_true Hi%bool_decide_eq_true].
      exists u. split; [|apply elem_of_column; by exists r].
      apply list_elem_of_bind. exists i.
      split; [|apply elem_of_column; by exists r].
      destruct (Z.ltb_spec 0 (count_if (same_pair u i) data)); [|lia].
      apply list_elem_of_here.
Qed.

(** The purchase list after construction holds exactly one row for
    every user and item other than the sentinel with at least one record:
    no row and no (user, item) pair occurs twice, the quantity of a row is
    the number of records of its pair, and a row with more records never
    comes after one with fewer. *)
Theorem purchase_list_counts_the_pairs lib data weighting
    (self : MainRecommender) :
  __init__ lib data weighting = Ok self →
  NoDup (top_purchases self) ∧
  NoDup ((λ row, (p_user row, p_item row)) <$> top_purchases self) ∧
  (∀ row, row ∈ top_purchases self ↔
          p_item row ≠ unknown_item ∧
          0 < p_quantity row ∧
          p_quantity row
            = count_if (same_pair (p_user row) (p_item row)) data) ∧
  (∀ (j k : nat) a b,
     (j < k)%nat →
     top_purchases self !! j = Some a →
     top_purchases self !! k = Some b →
     p_quantity b ≤ p_quantity a).
Proof.
  intros Hinit. apply init_fields in Hinit as (-> & _).
  destruct (groupby_user_item_count_rows data) as [Hnodup Hgroups].
  assert (NoDup (filter (λ r, p_item r ≠ unknown_item)
                   (sort_values_desc p_quantity
                      (groupby_user_item_count data)))) as Hrows.
  { apply NoDup_filter. unfold sort_values_desc.
    by rewrite merge_sort_Permutation. }
  assert (∀ row, row ∈ filter (λ r, p_item r ≠ unknown_item)
                         (sort_values_desc p_quantity
                            (groupby_user_item_count data)) ↔
                 p_item row ≠ unknown_item ∧
                 0 < p_quantity row ∧
                 p_quantity row
                   = count_if (same_pair (p_user row) (p_item row)) data)
    as Hmem.
  { intros row. rewrite list_elem_of_filter, elem_of_sort_values_desc.
    rewrite Hgroups. tauto. }
  split; [exact Hrows|]. split; [|split; [exact Hmem|]].
  - apply NoDup_fmap_2_strong; [|exact Hrows].
    intros [u1 i1 q1] [u2 i2 q2] (_ & _ & H1)%Hmem (_ & _ & H2)%Hmem.
    simpl in *. intros [= -> ->]. congruence.
  - intros j k a b Hjk Hj Hk.
    eapply (StronglySorted_lookup (desc_by p_quantity));
      [|exact Hjk|exact Hj|exact Hk].
    apply StronglySorted_filter, sort_values_desc_sorted.
Qed.

Lemma purchase_list_counts_the_pairs_witness :
  __init__ (table_library shop_model) shop_data false = Ok shop_state ∧
  ({| p_user := 1; p_item := 10; p_quantity := 2 |} ∈ top_purchases shop_state).
Proof.
  assert (__init__ (table_library shop_model) shop_data false = Ok shop_state)
    as Hinit by (vm_compute; reflexivity).
  split; [exact Hinit|].
  apply (proj1 (proj2 (proj2
           (purchase_list_counts_the_pairs _ _ _ _ Hinit)))).
  split; [vm_compute; discriminate|].
  split; vm_compute; reflexivity.
Defined.

(** The user table covers the rows of the pivot table and gives every
    other user an index past them. *)
Lemma user_table_covers_rows_init lib data weighting self :
  __init__ lib data weighting = Ok self →
  (∀ (j : nat) u, index (_prepare_matrix data) !! j = Some u →
                  userid_to_id self !! KInt u = Some (Z.of_nat j)) ∧
  (∀ k i, userid_to_id self !! k = Some i →
     ∃ u, k = KInt u ∧
       ((∃ j : nat, i = Z.of_nat j ∧
                    index (_prepare_matrix data) !! j = Some u) ∨
        ((u ∉ index (_prepare_matrix data)) ∧
         Z.of_nat (length (index (_prepare_matrix data))) ≤ i))).
Proof.
  intros Hinit.
  pose proof (init_tables_bijective _ _ _ _ Hinit) as [[Hto _] _].
  apply init_fields in Hinit as (_ & _ & Hd & _).
  unfold _prepare_dicts in Hd. injection Hd as _ _ _ Hd.
  destruct (dict_zip_numbers (index (_prepare_matrix data)))
    as [Hnum _]; [apply NoDup_sorted_unique|].
  simpl in Hd, Hnum. rewrite Hd in Hnum. simpl. split.
  - intros j u. apply Hnum.
  - intros k i Hk. destruct (Hto _ _ Hk) as (u & -> & _).
    exists u. split; [done|]. left.
    assert (∃ j : nat, index (_prepare_matrix data) !! j = Some u)
      as [j Hj].
    { apply list_elem_of_lookup. rewrite <- Hd in Hk.
      apply (dict_zip_labels _ u (NoDup_sorted_unique _)). by eexists. }
    exists j. split; [|done]. apply Hnum in Hj. congruence.
Qed.

Lemma user_table_covers_rows_step (rows : list Z) (self : MainRecommender)
    (user : Z) :
  ((∀ (j : nat) u, rows !! j = Some u →
                   userid_to_id self !! KInt u = Some (Z.of_nat j)) ∧
   (∀ k i, userid_to_id self !! k = Some i →
      ∃ u, k = KInt u ∧
        ((∃ j : nat, i = Z.of_nat j ∧ rows !! j = Some u) ∨
         ((u ∉ rows) ∧ Z.of_nat (length rows) ≤ i)))) →
  (∀ (j : nat) u, rows !! j = Some u →
     userid_to_id (_update_dict user self).1 !! KInt u = Some (Z.of_nat j)) ∧
  (∀ k i, userid_to_id (_update_dict user self).1 !! k = Some i →
     ∃ u, k = KInt u ∧
       ((∃ j : nat, i = Z.of_nat j ∧ rows !! j = Some u) ∨
        ((u ∉ rows) ∧ Z.of_nat (length rows) ≤ i))).
Proof.
  intros [Hrows Hall].
  destruct (update_dict_cases self user)
    as [[_ ->]|[[m (Hu & Hmax & ->)]|[_ ->]]]; [done| |done].
  simpl. apply py_max_Ok in Hmax as [Hin Hle].
  assert (user ∉ rows) as Hnotin.
  { intros [j Hj]%list_elem_of_lookup. apply Hrows in Hj. congruence. }
  split.
  - intros j u Hj. rewrite lookup_insert_ne; [by apply Hrows|].
    intros [= ->]. apply Hnotin. by eapply list_elem_of_lookup_2.
  - intros k i. destruct (decide (k = KInt user)) as [->|Hne].
    + rewrite lookup_insert_eq. intros [= <-].
      exists user. split; [done|]. right. split; [done|].
      destruct (length rows) as [|n] eqn:Hlen.
      * apply elem_of_dict_values in Hin as [k Hk].
        destruct (Hall _ _ Hk) as (u & _ & [(j & -> & _)|[_ ?]]); lia.
      * assert (is_Some (rows !! n)) as [u Hn]
          by (apply lookup_lt_is_Some; lia).
        apply Hrows in Hn.
        assert (Z.of_nat n ≤ m); [|lia].
        apply Hle. apply elem_of_dict_values. by eexists.
    + rewrite lookup_insert_ne by done. apply Hall.
Qed.

Lemma user_index_cases lib data weighting
    (self : MainRecommender) (users : list Z) (user i : Z) :
  __init__ lib data weighting = Ok self →
  userid_to_id (after_updates self users) !! KInt user = Some i →
  (∃ j : nat, i = Z.of_nat j ∧
              index (_prepare_matrix data) !! j = Some user) ∨
  ((user ∉ index (_prepare_matrix data)) ∧
   Z.of_nat (length (index (_prepare_matrix data))) ≤ i).
Proof.
  intros Hinit Hi.
  pose proof (user_table_covers_rows_init _ _ _ _ Hinit) as Hinv.
  clear Hinit. unfold after_updates in Hi. revert self Hinv Hi.
  induction users as [|u users IH]; intros self Hinv Hi.
  - destruct Hinv as [_ Hall].
    by destruct (Hall _ _ Hi) as (u & [= <-] & Hcase).
  - simpl in Hi. eapply IH; [|exact Hi].
    by apply user_table_covers_rows_step.
Qed.

(** After construction and any run of [_update_dict] calls, a user of
    the transaction table has the position of its row in the pivot table
    of [_prepare_matrix] as index, and any other user has an index at or
    past the number of rows of that table: the pivot table has no row
    label and no row of cells at that position. *)
Theorem users_outside_the_data_have_no_row lib data weighting
    (self : MainRecommender) (users : list Z) (user i : Z) :
  __init__ lib data weighting = Ok self →
  userid_to_id (after_updates self users) !! KInt user = Some i →
  (∃ j : nat, i = Z.of_nat j ∧
              index (_prepare_matrix data) !! j = Some user) ∨
  ((user ∉ index (_prepare_matrix data)) ∧
   Z.of_nat (length (index (_prepare_matrix data))) ≤ i ∧
   index (_prepare_matrix data) !! Z.to_nat i = None ∧
   values (_prepare_matrix data) !! Z.to_nat i = None).
Proof.
  intros Hinit Hi.
  destruct (user_index_cases _ _ _ _ _ _ _ Hinit Hi) as [Hrow|[Hout Hge]];
    [by left|].
  right. split; [done|]. split; [done|].
  split; apply lookup_ge_None.
  - lia.
  - unfold _prepare_matrix in *. simpl in *. rewrite length_fmap. lia.
Qed.

(** User 7 is not in the shop data, whose pivot table has two rows. *)
Lemma users_outside_the_data_have_no_row_witness :
  __init__ (table_library shop_model) shop_data false = Ok shop_state ∧
  userid_to_id (after_updates shop_state [2; 7]) !! KInt 7 = Some 2 ∧
  (7 ∉ index (_prepare_matrix shop_data)) ∧
  Z.of_nat (length (index (_prepare_matrix shop_data))) ≤ 2 ∧
  index (_prepare_matrix shop_data) !! Z.to_nat 2 = None ∧
  values (_prepare_matrix shop_data) !! Z.to_nat 2 = None.
Proof.
  assert (__init__ (table_library shop_model) shop_data false = Ok shop_state)
    as Hinit by (vm_compute; reflexivity).
  assert (userid_to_id (after_updates shop_state [2; 7]) !! KInt 7 = Some 2)
    as Hi by (vm_compute; reflexivity).
  split; [exact Hinit|]. split; [exact Hi|].
  destruct (users_outside_the_data_have_no_row _ _ _ shop_state [2; 7] 7 2
              Hinit Hi) as [(j & Hj & Hrow)|Hout]; [|exact Hout].
  exfalso. assert (j = 2%nat) as -> by lia.
  vm_compute in Hrow. discriminate Hrow.
Defined.

(** The id tables and the two purchase lists are built from the
    transaction table alone: neither the library nor the [weighting] flag
    has a part in them. *)
Theorem tables_depend_on_the_data_only lib1 lib2 data weighting1 weighting2
    (self1 self2 : MainRecommender) :
  __init__ lib1 data weighting1 = Ok self1 →
  __init__ lib2 data weighting2 = Ok self2 →
  top_purchases self1 = top_purchases self2 ∧
  overall_top_purchases self1 = overall_top_purchases self2 ∧
  id_to_itemid self1 = id_to_itemid self2 ∧
  id_to_userid self1 = id_to_userid self2 ∧
  itemid_to_id self1 = itemid_to_id self2 ∧
  userid_to_id self1 = userid_to_id self2.
Proof.
  intros (Ht1 & Hp1 & Hd1 & _)%init_fields (Ht2 & Hp2 & Hd2 & _)%init_fields.
  rewrite Hd1 in Hd2. injection Hd2 as -> -> -> ->.
  by rewrite Ht1, Ht2, Hp1, Hp2.
Qed.

Lemma tables_depend_on_the_data_only_witness :
  __init__ (table_library shop_model) shop_data false = Ok shop_state ∧
  ∃ self, __init__ (table_library kiosk_model) shop_data true = Ok self ∧
          userid_to_id shop_state = userid_to_id self ∧
          overall_top_purchases shop_state = overall_top_purchases self.
Proof.
  assert (__init__ (table_library shop_model) shop_data false = Ok shop_state)
    as Hinit by (vm_compute; reflexivity).
  split; [exact Hinit|].
  destruct (__init__ (table_library kiosk_model) shop_data true)
    as [self|e] eqn:Hinit'; [|vm_compute in Hinit'; discriminate Hinit'].
  exists self. split; [reflexivity|].
  destruct (tables_depend_on_the_data_only _ _ _ _ _ _ _ Hinit Hinit')
    as (_ & Hpop & _ & _ & _ & Hu).
  by split.
Defined.

Lemma user_table_covers_rows lib data weighting self users :
  __init__ lib data weighting = Ok self →
  ∀ (j : nat) u, index (_prepare_matrix data) !! j = Some u →
    userid_to_id (after_updates self users) !! KInt u = Some (Z.of_nat j).
Proof.
  intros Hinit.
  pose proof (user_table_covers_rows_init _ _ _ _ Hinit) as Hinv.
  clear Hinit. unfold after_updates. revert self Hinv.
  induction users as [|u users IH]; intros self Hinv; [apply Hinv|].
  simpl. apply IH. by apply user_table_covers_rows_step.
Qed.

Lemma item_table_after_updates lib data weighting self users (i : Z) :
  __init__ lib data weighting = Ok self →
  is_Some (itemid_to_id (after_updates self users) !! KInt i) ↔
  ∃ r, r ∈ data ∧ item_id r = i.
Proof.
  intros Hinit.
  destruct (after_updates_frame self users) as (_ & _ & _ & _ & -> & _).
  apply init_fields in Hinit as (_ & _ & Hd & _).
  unfold _prepare_dicts in Hd. injection Hd as _ _ <- _.
  rewrite dict_zip_labels by apply NoDup_sorted_unique.
  apply elem_of_column.
Qed.

Lemma res_map_getitem_Ok (d : gmap pykey Z) (l : list Z) :
  Forall (λ i, is_Some (d !! KInt i)) l →
  ∃ selected, res_map (λ item, getitem d (KInt item)) l = Ok selected.
Proof.
  induction 1 as [|i l [idx Hidx] _ [sel IH]]; [by eexists|].
  simpl. unfold getitem at 1. rewrite Hidx. simpl. rewrite IH.
  by eexists.
Qed.

(** After construction and any run of [_update_dict] calls, every item
    of the popularity list and every item and user of the purchase list
    is a key of its table, so the lookups the methods make for them do
    not end in [KeyError]. *)
Theorem listed_items_and_users_have_indices lib data weighting
    (self : MainRecommender) (users : list Z) :
  __init__ lib data weighting = Ok self →
  Forall (λ i, is_Some (itemid_to_id (after_updates self users) !! KInt i))
    (overall_top_purchases (after_updates self users)) ∧
  Forall (λ row,
            is_Some (itemid_to_id (after_updates self users)
                       !! KInt (p_item row)) ∧
            is_Some (userid_to_id (after_updates self users)
                       !! KInt (p_user row)))
    (top_purchases (after_updates self users)) ∧
  ∃ selected,
    res_map (λ item, getitem (itemid_to_id (after_updates self users))
                       (KInt item))
      (overall_top_purchases (after_updates self users)) = Ok selected.
Proof.
  intros Hinit.
  destruct (after_updates_frame self users) as (Htop & Hpop & _).
  rewrite Htop, Hpop.
  pose proof (init_fields _ _ _ _ Hinit) as (Ht & Hp & _).
  assert (Forall (λ i, is_Some (itemid_to_id (after_updates self users)
                                  !! KInt i))
            (overall_top_purchases self)) as Hitems.
  { apply Forall_forall. intros i Hi.
    apply (item_table_after_updates _ _ _ _ _ _ Hinit).
    rewrite Hp in Hi. apply list_elem_of_fmap in Hi as (row & -> & Hrow).
    apply list_elem_of_filter in Hrow as [_ Hrow].
    apply elem_of_sort_values_desc in Hrow.
    apply list_elem_of_fmap in Hrow as (i & -> & Hi).
    by apply elem_of_column in Hi. }
  split; [exact Hitems|]. split.
  - apply Forall_forall. intros row Hrow. rewrite Ht in Hrow.
    apply list_elem_of_filter in Hrow as [_ Hrow].
    apply elem_of_sort_values_desc in Hrow.
    unfold groupby_user_item_count in Hrow.
    apply list_elem_of_bind in Hrow as (u & Hrow & Hu).
    apply list_elem_of_bind in Hrow as (i & Hrow & Hi).
    destruct (0 <? count_if (same_pair u i) data);
      [|by apply elem_of_nil in Hrow].
    apply list_elem_of_singleton in Hrow as ->. simpl. split.
    + apply (item_table_after_updates _ _ _ _ _ _ Hinit).
      by apply elem_of_column in Hi.
    + apply list_elem_of_lookup in Hu as [j Hj]. exists (Z.of_nat j).
      by apply (user_table_covers_rows _ _ _ _ _ Hinit).
  - by apply res_map_getitem_Ok.
Qed.

Lemma listed_items_and_users_have_indices_witness :
  __init__ (table_library shop_model) shop_data false = Ok shop_state ∧
  res_map (λ item, getitem (itemid_to_id (after_updates shop_state [7]))
                     (KInt item))
    (overall_top_purchases (after_updates shop_state [7])) = Ok [0; 1].
Proof.
  assert (__init__ (table_library shop_model) shop_data false = Ok shop_state)
    as Hinit by (vm_compute; reflexivity).
  split; [exact Hinit|].
  destruct (listed_items_and_users_have_indices _ _ _ shop_state [7] Hinit)
    as (_ & _ & sel & Hsel).
  rewrite Hsel. f_equal.
  assert (Ok sel = Ok [0; 1]) as Heq
    by (rewrite <- Hsel; vm_compute; reflexivity).
  by injection Heq.
Defined.

(** On a non-empty transaction table without the sentinel item,
    [_get_recommendations] and [_get_scores] end in the [KeyError] of
    [self.itemid_to_id[999999]] for every user, model and [N], before the
    library is called. *)
Theorem data_without_unknown_item_gives_key_error lib data weighting
    (self : MainRecommender) (users : list Z) (user : Z) (model : Model)
    (N : Z) :
  __init__ lib data weighting = Ok self →
  data ≠ [] →
  (∀ r, r ∈ data → item_id r ≠ unknown_item) →
  (_get_recommendations user model N (after_updates self users)).2
    = Raise KeyError ∧
  (_get_scores user model N (after_updates self users)).2 = Raise KeyError.
Proof.
  intros Hinit Hdata Hnone.
  set (s := after_updates self users).
  assert (itemid_to_id s !! KInt unknown_item = None) as Hunknown.
  { apply eq_None_not_Some.
    intros (r & Hr & Hi)%(item_table_after_updates _ _ _ _ _ _ Hinit).
    by apply (Hnone r). }
  assert (∃ s', _update_dict user s = (s', Ok tt)) as [s' Hupd].
  { destruct (update_dict_cases s user)
      as [[_ Hupd]|[[m (_ & _ & Hupd)]|[Hnil _]]];
      [by eexists | by eexists |].
    exfalso. destruct data as [|r data]; [done|].
    assert (∃ u, index (_prepare_matrix (r :: data)) !! 0%nat = Some u)
      as [u Hu].
    { assert (user_id r ∈ index (_prepare_matrix (r :: data))) as Hin.
      { apply elem_of_column. exists r. split; [apply list_elem_of_here|done]. }
      destruct (index (_prepare_matrix (r :: data)));
        [by apply elem_of_nil in Hin | by eexists]. }
    apply (user_table_covers_rows _ _ _ _ users Hinit) in Hu.
    apply dict_values_nil in Hnil. fold s in Hu.
    by rewrite Hnil, lookup_empty in Hu. }
  destruct (update_dict_knows _ _ _ Hupd) as [userid Huser].
  pose proof (update_dict_frame s user) as Hframe.
  rewrite Hupd in Hframe. destruct Hframe as (_ & _ & _ & _ & Hitem & _).
  simpl in Hitem.
  split.
  - unfold _get_recommendations. run. rewrite Hupd. simpl.
    unfold getitem. by rewrite Huser, Hitem, Hunknown.
  - unfold _get_scores. run. rewrite Hupd. simpl.
    unfold getitem. by rewrite Huser, Hitem, Hunknown.
Qed.

Lemma data_without_unknown_item_gives_key_error_witness :
  (∃ self, __init__ (table_library shop_model) [bought 1 10; bought 2 20]
             false = Ok self ∧
           (_get_recommendations 1 shop_model 1 (after_updates self [])).2
             = Raise KeyError).
Proof.
  destruct (__init__ (table_library shop_model) [bought 1 10; bought 2 20]
              false) as [self|e] eqn:Hinit;
    [|vm_compute in Hinit; discriminate Hinit].
  exists self. split; [reflexivity|].
  refine (proj1 (data_without_unknown_item_gives_key_error _ _ _ self []
                   1 shop_model 1 Hinit _ _)).
  - discriminate.
  - intros r Hr.
    apply elem_of_cons in Hr as [->|Hr]; [vm_compute; discriminate|].
    apply list_elem_of_singleton in Hr as ->. vm_compute. discriminate.
Defined.

Ltac wrapper_is_inner Hattr :=
  match goal with
  | |- ?entry ?user ?N ?self = ?inner ?user ?model ?N ?self =>
      unfold entry, inner; run;
      destruct (_update_dict user self) as [s0 [[]|e]] eqn:Hupd; [|done];
      simpl;
      let Hframe := fresh in
      pose proof (update_dict_frame self user) as Hframe;
      rewrite Hupd in Hframe;
      destruct Hframe as (_ & _ & _ & _ & _ & Hframe); simpl in Hframe;
      rewrite Hframe, Hattr; simpl;
      rewrite (update_dict_known s0 user (update_dict_knows _ _ _ Hupd));
      reflexivity
  end.

(** A wrapper is its inner call with the model its attribute holds: the
    [_update_dict] call of the wrapper itself adds nothing, since the
    inner method starts with the same call. *)
Theorem wrappers_are_their_inner_calls (self : MainRecommender) (user N : Z) :
  Forall (λ '(name, entry),
            ∀ model, model_attrs self !! name = Some model →
              entry user N self = _get_recommendations user model N self)
    [("model", get_als_recommendations);
     ("model_bm25", get_bm25_recommendations);
     ("model_tfidf", get_tfidf_recommendations);
     ("model_cosine", get_cosine_recommendations);
     ("own_recommender", get_own_recommendations)] ∧
  Forall (λ '(name, entry),
            ∀ model, model_attrs self !! name = Some model →
              entry user N self = _get_scores user model N self)
    [("model_als", get_als_scores);
     ("model_bm25", get_bm25_scores);
     ("model_tfidf", get_tfidf_scores);
     ("model_cosine", get_cosine_scores);
     ("own_recommender", get_own_scores)].
Proof.
  split; repeat constructor; intros model Hattr; wrapper_is_inner Hattr.
Qed.

Lemma wrappers_are_their_inner_calls_witness :
  model_attrs shop_state !! "model_bm25" = Some shop_model ∧
  get_bm25_scores 7 2 shop_state = _get_scores 7 shop_model 2 shop_state.
Proof.
  assert (model_attrs shop_state !! "model_bm25" = Some shop_model) as Hattr
    by (vm_compute; reflexivity).
  split; [exact Hattr|].
  pose proof (proj2 (wrappers_are_their_inner_calls shop_state 7 2)) as Hall.
  apply Forall_cons in Hall as [_ Hall].
  apply Forall_cons in Hall as [Hbm25 _].
  exact (Hbm25 shop_model Hattr).
Defined.

(** * Further properties of the padding and of the similar-items request *)

Lemma elem_of_extend (self : MainRecommender) (recs : list (option Z))
    (N : Z) (x : option Z) :
  x ∈ _extend_with_top_popular self recs N →
  x ∈ recs ∨ ∃ i, x = Some i ∧ i ∈ overall_top_purchases self.
Proof.
  unfold _extend_with_top_popular.
  destruct (len recs <? N); [|by left].
  intros Hx%elem_of_slice_to.
  apply elem_of_app in Hx as [Hx|Hx]; [by left|]. right.
  apply list_elem_of_fmap in Hx as (i & -> & Hi).
  exists i. split; [done|]. by apply elem_of_slice_to in Hi.
Qed.

(** Padding keeps the list it is given in front and unchanged; what it
    adds after it are the first items of the popularity list, in the
    order of that list, as many as are missing to [N] (none for a list
    that already holds [N] entries) or all of them when there are fewer;
    a short list is never padded past [N] entries. *)
Theorem padding_keeps_the_given_list_in_front (self : MainRecommender)
    (recs : list (option Z)) (N : Z) :
  _extend_with_top_popular self recs N =
    recs ++ (Some <$> take (Z.to_nat (N - len recs))
                        (overall_top_purchases self)) ∧
  recs `prefix_of` _extend_with_top_popular self recs N ∧
  len (_extend_with_top_popular self recs N) =
    len recs + Z.min (Z.max 0 (N - len recs))
                 (len (overall_top_purchases self)) ∧
  (len recs < N → len (_extend_with_top_popular self recs N) ≤ N).
Proof.
  pose proof (extend_exact self recs N) as Hexact.
  assert (len (_extend_with_top_popular self recs N) =
          len recs + Z.min (Z.max 0 (N - len recs))
                       (len (overall_top_purchases self))) as Hlen.
  { rewrite Hexact, len_app, len_fmap. unfold len.
    rewrite length_take. lia. }
  split; [exact Hexact|]. split; [|split; [exact Hlen|]].
  - rewrite Hexact. by eexists.
  - intros Hshort. rewrite Hlen. lia.
Qed.

Lemma reads_for_each {A B} (f : A → M B) (l : list A) :
  (∀ x, reads (f x)) → reads (for_each f l).
Proof.
  intros Hf. induction l as [|x l IH]; simpl; [apply reads_ret|].
  apply reads_bind; [done|]. intros y.
  apply reads_bind; [done|]. intros ys. apply reads_ret.
Qed.

Lemma reads_get_similar_item (item_id : Z) : reads (_get_similar_item item_id).
Proof. unfold _get_similar_item. reads_steps. Qed.

(** The similar-items request only reads the instance: unlike the
    wrappers it enters no new user in the tables, and ends with the
    instance exactly as it found it, also when it raises. *)
Theorem similar_items_request_leaves_the_instance_alone
    (self : MainRecommender) (user N item_id : Z) :
  (get_similar_items_recommendation user N self).1 = self ∧
  (_get_similar_item item_id self).1 = self.
Proof.
  split; [|apply reads_get_similar_item].
  unfold get_similar_items_recommendation.
  apply reads_bind; [apply reads_get_self | intros s].
  apply reads_bind;
    [apply reads_for_each, reads_get_similar_item | intros res].
  reads_steps.
Qed.

(** For a user without a row in the purchase list (a user the data does
    not have, or one who bought only the sentinel) the similar-items
    request asks no model: it returns the first [N] popularity items when
    there are that many, and fails the assertion when there are fewer or
    when [N] is negative. *)
Theorem no_purchases_gives_popular_items (self : MainRecommender)
    (user N : Z) :
  Forall (λ row, p_user row ≠ user) (top_purchases self) →
  (0 ≤ N ≤ len (overall_top_purchases self) →
   get_similar_items_recommendation user N self =
     (self, Ok (Some <$> slice_to (overall_top_purchases self) N))) ∧
  (N < 0 ∨ len (overall_top_purchases self) < N →
   get_similar_items_recommendation user N self =
     (self, Raise AssertionError)).
Proof.
  intros Hnone.
  assert (filter (λ r, p_user r = user) (top_purchases self) = []) as Hfilter.
  { induction Hnone as [|row rows Hrow _ IH]; [done|].
    rewrite filter_cons. by destruct (decide (p_user row = user)). }
  assert (get_similar_items_recommendation user N self =
          assert_len (_extend_with_top_popular self [] N) N self) as ->.
  { unfold get_similar_items_recommendation. run. rewrite Hfilter.
    assert (slice_to (@nil purchase) N = []) as ->
      by (destruct (slice_to_prefix (@nil purchase) N) as [k ->];
          by destruct k).
    done. }
  rewrite assert_len_run.
  pose proof (len_nonneg (overall_top_purchases self)) as Hpop.
  split.
  - intros [H0 HN]. destruct (decide (N = 0)) as [->|Hpos].
    + rewrite extend_long by (unfold len; simpl; lia).
      by rewrite bool_decide_eq_true_2.
    + assert (len (@nil (option Z)) < N) as Hshort
        by (unfold len; simpl; lia).
      rewrite (extend_short _ _ _ Hshort). simpl.
      rewrite slice_to_all by (rewrite len_fmap, len_slice_to; lia).
      rewrite bool_decide_eq_true_2; [done|].
      rewrite len_fmap, len_slice_to; lia.
  - intros [Hneg|Hfew].
    + rewrite extend_long by (unfold len; simpl; lia).
      rewrite bool_decide_eq_false_2; [done|]. unfold len. simpl. lia.
    + assert (len (@nil (option Z)) < N) as Hshort
        by (unfold len; simpl; lia).
      rewrite bool_decide_eq_false_2; [done|].
      rewrite (len_extend_short_iff _ _ _ Hshort). unfold len at 1. simpl.
      lia.
Qed.

(** User 99 has bought nothing at the shop. *)
Lemma no_purchases_gives_popular_items_witness :
  Forall (λ row, p_user row ≠ 99) (top_purchases shop_state) ∧
  get_similar_items_recommendation 99 2 shop_state
    = (shop_state, Ok [Some 10; Some 20]) ∧
  get_similar_items_recommendation 99 3 shop_state
    = (shop_state, Raise AssertionError).
Proof.
  assert (Forall (λ row, p_user row ≠ 99) (top_purchases shop_state)) as Hnone
    by (repeat constructor; vm_compute; discriminate).
  split; [exact Hnone|].
  destruct (no_purchases_gives_popular_items shop_state 99 2 Hnone)
    as [Hok _].
  destruct (no_purchases_gives_popular_items shop_state 99 3 Hnone)
    as [_ Hfail].
  split.
  - rewrite Hok; [reflexivity|]. vm_compute. split; discriminate.
  - apply Hfail. right. vm_compute. reflexivity.
Defined.

(** * Further properties of the score methods *)

(** The run of [_get_scores] once [_update_dict], the lookups and the
    [recommend] call have gone through. *)
Lemma get_scores_run (self self' : MainRecommender)
    (user : Z) (model : Model) (N userid unknown : Z)
    (ids : list Z) (scores : list float) :
  _update_dict user self = (self', Ok tt) →
  userid_to_id self' !! KInt user = Some userid →
  itemid_to_id self !! KInt unknown_item = Some unknown →
  recommend model userid (csr_matrix (user_item_matrix self)) N false
    [unknown] true = Ok (ids, scores) →
  _get_scores user model N self =
    if len scores <? N then
      match res_map (λ item, getitem (itemid_to_id self) (KInt item))
              (overall_top_purchases self) with
      | Ok selected =>
          match rank_items model userid (csr_matrix (user_item_matrix self))
                  selected true with
          | Ok ranked => assert_len (slice_to (scores ++ ranked.2) N) N self'
          | Raise e => (self', Raise e)
          end
      | Raise e => (self', Raise e)
      end
    else assert_len (slice_to scores N) N self'.
Proof.
  intros Hupd Huser Hunknown Hrec.
  pose proof (update_dict_frame self user) as Hframe.
  rewrite Hupd in Hframe. destruct Hframe as (_ & Hpop & Hmx & _ & Hitem & _).
  simpl in *.
  unfold _get_scores. run. rewrite Hupd. simpl.
  unfold getitem at 1. rewrite Huser. simpl.
  unfold getitem at 1. rewrite Hitem, Hunknown. simpl.
  rewrite Hmx, Hrec. simpl.
  destruct (len scores <? N); [|done].
  unfold getitem at 1. rewrite Huser. simpl. rewrite Hpop.
  destruct (res_map _ (overall_top_purchases self)) as [selected|e];
    [simpl|done].
  by destruct (rank_items model userid _ selected true).
Qed.

(** When [recommend] returns at least [N] scores, [_get_scores] returns
    the first [N] of them and does not call [rank_items]; unlike
    [_get_recommendations] it cuts a longer result down to [N]. *)
Theorem scores_are_cut_to_N (self self' : MainRecommender)
    (user : Z) (model : Model) (N userid unknown : Z)
    (ids : list Z) (scores : list float) :
  _update_dict user self = (self', Ok tt) →
  userid_to_id self' !! KInt user = Some userid →
  itemid_to_id self !! KInt unknown_item = Some unknown →
  recommend model userid (csr_matrix (user_item_matrix self)) N false
    [unknown] true = Ok (ids, scores) →
  0 ≤ N ≤ len scores →
  _get_scores user model N self = (self', Ok (slice_to scores N)) ∧
  len (slice_to scores N) = N.
Proof.
  intros Hupd Huser Hunknown Hrec [H0 HN].
  rewrite (get_scores_run _ _ _ _ _ _ _ _ _ Hupd Huser Hunknown Hrec).
  destruct (Z.ltb_spec (len scores) N); [lia|].
  assert (len (slice_to scores N) = N) as Hlen
    by (rewrite len_slice_to; lia).
  rewrite assert_len_run, bool_decide_eq_true_2 by done. done.
Qed.

(** User 2 of the shop: the model has two scores, one is asked for. *)
Lemma scores_are_cut_to_N_witness :
  _update_dict 2 shop_state = (shop_state, Ok tt) ∧
  recommend shop_model 1 (csr_matrix (user_item_matrix shop_state)) 1 false
    [2] true = Ok ([1], [one]) ∧
  _get_scores 2 shop_model 1 shop_state = (shop_state, Ok [one]).
Proof.
  assert (_update_dict 2 shop_state = (shop_state, Ok tt)) as Hupd
    by (vm_compute; reflexivity).
  assert (recommend shop_model 1 (csr_matrix (user_item_matrix shop_state))
            1 false [2] true = Ok ([1], [one])) as Hrec
    by (vm_compute; reflexivity).
  split; [exact Hupd|]. split; [exact Hrec|].
  refine (proj1 (scores_are_cut_to_N shop_state shop_state 2 shop_model 1 1 2
                   [1] [one] Hupd _ _ Hrec _)).
  - vm_compute. reflexivity.
  - vm_compute. reflexivity.
  - vm_compute. split; discriminate.
Defined.

(** When [recommend] returns fewer than [N] scores, [_get_scores] has
    the model rank every item of the popularity list (not only the first
    [N]) and appends those scores; the first [N] of the whole are
    returned when there are that many, otherwise the assertion fails. *)
Theorem short_scores_are_padded_with_ranked_popular_items
    (self self' : MainRecommender) (user : Z) (model : Model)
    (N userid unknown : Z) (ids : list Z) (scores : list float)
    (selected ranked_ids : list Z) (ranked_scores : list float) :
  _update_dict user self = (self', Ok tt) →
  userid_to_id self' !! KInt user = Some userid →
  itemid_to_id self !! KInt unknown_item = Some unknown →
  recommend model userid (csr_matrix (user_item_matrix self)) N false
    [unknown] true = Ok (ids, scores) →
  len scores < N →
  res_map (λ item, getitem (itemid_to_id self) (KInt item))
    (overall_top_purchases self) = Ok selected →
  rank_items model userid (csr_matrix (user_item_matrix self)) selected true
    = Ok (ranked_ids, ranked_scores) →
  (N ≤ len scores + len ranked_scores →
   _get_scores user model N self =
     (self', Ok (slice_to (scores ++ ranked_scores) N))) ∧
  (len scores + len ranked_scores < N →
   _get_scores user model N self = (self', Raise AssertionError)).
Proof.
  intros Hupd Huser Hunknown Hrec Hshort Hsel Hrank.
  rewrite (get_scores_run _ _ _ _ _ _ _ _ _ Hupd Huser Hunknown Hrec).
  destruct (Z.ltb_spec (len scores) N); [|lia].
  rewrite Hsel, Hrank. simpl. rewrite assert_len_run.
  pose proof (len_nonneg scores). pose proof (len_nonneg ranked_scores).
  assert (len (slice_to (scores ++ ranked_scores) N)
          = Z.min N (len scores + len ranked_scores)) as Hlen
    by (rewrite len_slice_to, len_app; lia).
  split; intros Hcount.
  - rewrite bool_decide_eq_true_2; [done | lia].
  - rewrite bool_decide_eq_false_2; [done | lia].
Qed.

(** User 1 of the shop: the model has one score, two are asked for. *)
Lemma short_scores_are_padded_with_ranked_popular_items_witness :
  _update_dict 1 shop_state = (shop_state, Ok tt) ∧
  _get_scores 1 shop_model 2 shop_state = (shop_state, Ok [one; half]).
Proof.
  assert (_update_dict 1 shop_state = (shop_state, Ok tt)) as Hupd
    by (vm_compute; reflexivity).
  split; [exact Hupd|].
  refine (proj1 (short_scores_are_padded_with_ranked_popular_items
                   shop_state shop_state 1 shop_model 2 0 2 [0] [one]
                   [0; 1] [0; 1] [half; half] Hupd _ _ _ _ _ _) _).
  - vm_compute. reflexivity.
  - vm_compute. reflexivity.
  - vm_compute. reflexivity.
  - vm_compute. reflexivity.
  - vm_compute. reflexivity.
  - vm_compute. reflexivity.
  - vm_compute. discriminate.
Defined.

Lemma get_scores_Ok (user : Z) (model : Model) (N : Z)
    (self self' : MainRecommender) (l : list float) :
  _get_scores user model N self = (self', Ok l) → len l = N.
Proof.
  unfold _get_scores. intros Hrun.
  apply bind_Ok in Hrun as ([] & s0 & _ & Hrun).
  apply bind_Ok in Hrun as (s & s1 & _ & Hrun).
  apply bind_Ok in Hrun as (userid & s2 & _ & Hrun).
  apply bind_Ok in Hrun as (unknown & s3 & _ & Hrun).
  apply bind_Ok in Hrun as (out & s4 & _ & Hrun).
  apply bind_Ok in Hrun as (scores & s5 & _ & Hrun).
  by apply assert_len_Ok in Hrun as (_ & -> & Hlen).
Qed.

Lemma request_Ok_len (r : request) (user N : Z)
    (self self' : MainRecommender) (l : list (option Z)) :
  recommendation_request r user N self = (self', Ok l) → len l = N.
Proof.
  intros Hrun.
  destruct r; simpl in Hrun;
    try (apply wrapper_Ok in Hrun as (model & s & Hrun);
         by apply get_recommendations_Ok in Hrun as [Hlen _]).
  - unfold get_similar_items_recommendation in Hrun.
    apply bind_Ok in Hrun as (s0 & s1 & _ & Hrun).
    apply bind_Ok in Hrun as (res & s2 & _ & Hrun).
    apply bind_Ok in Hrun as (s3 & s4 & _ & Hrun).
    by apply assert_len_Ok in Hrun as (_ & -> & Hlen).
  - unfold get_similar_users_recommendation in Hrun.
    apply bind_Ok in Hrun as (model & s0 & _ & Hrun).
    apply bind_Ok in Hrun as (s1 & s2 & _ & Hrun).
    apply bind_Ok in Hrun as (userid & s3 & _ & Hrun).
    apply bind_Ok in Hrun as (sims & s4 & _ & Hrun).
    apply bind_Ok in Hrun as (res & s5 & _ & Hrun).
    apply bind_Ok in Hrun as (s6 & s7 & _ & Hrun).
    by apply assert_len_Ok in Hrun as (_ & -> & Hlen).
Qed.

(** Every score entry point either returns exactly [N] scores or
    raises. *)
Theorem score_request_returns_N_scores_or_raises (self : MainRecommender)
    (user N : Z) :
  Forall (λ entry : Z → Z → M (list float),
            (∃ l, (entry user N self).2 = Ok l ∧ len l = N) ∨
            (∃ e, (entry user N self).2 = Raise e))
    [get_als_scores; get_bm25_scores; get_tfidf_scores;
     get_cosine_scores; get_own_scores].
Proof.
  repeat (apply List.Forall_cons;
    [match goal with
     | |- (∃ l, (?entry _ _ _).2 = _ ∧ _) ∨ _ =>
         destruct (entry user N self) as [s [l|e]] eqn:Hrun;
           [left | right; by exists e];
         exists l; split; [done|];
         apply wrapper_Ok in Hrun as (model & s0 & Hrun);
         by apply get_scores_Ok in Hrun
     end|]).
  apply List.Forall_nil.
Qed.

(** With a negative [N] no entry point returns a list: a list has no
    negative length, so whatever gets as far as the assertion fails
    it. *)
Theorem negative_count_always_raises (self : MainRecommender)
    (r : request) (user N : Z) :
  N < 0 →
  (∃ e, (recommendation_request r user N self).2 = Raise e) ∧
  Forall (λ entry : Z → Z → M (list float),
            ∃ e, (entry user N self).2 = Raise e)
    [get_als_scores; get_bm25_scores; get_tfidf_scores;
     get_cosine_scores; get_own_scores].
Proof.
  intros Hneg. split.
  - destruct (recommendation_request r user N self) as [s [l|e]] eqn:Hrun;
      [|by exists e].
    apply request_Ok_len in Hrun. pose proof (len_nonneg l). lia.
  - repeat (apply List.Forall_cons;
      [match goal with
       | |- ∃ e, (?entry _ _ _).2 = _ =>
           destruct (entry user N self) as [s [l|e]] eqn:Hrun;
             [|by exists e];
           apply wrapper_Ok in Hrun as (model & s0 & Hrun);
           apply get_scores_Ok in Hrun; pose proof (len_nonneg l); lia
       end|]).
    apply List.Forall_nil.
Qed.

Lemma negative_count_always_raises_witness :
  -1 < 0 ∧
  (recommendation_request Bm25 1 (-1) shop_state).2 = Raise AssertionError.
Proof.
  assert (-1 < 0) as Hneg by lia.
  split; [exact Hneg|].
  destruct (proj1 (negative_count_always_raises shop_state Bm25 1 (-1) Hneg))
    as [e He].
  rewrite He. f_equal.
  assert (Raise e = @Raise (list (option Z)) AssertionError) as Heq
    by (rewrite <- He; vm_compute; reflexivity).
  by injection Heq.
Defined.

(** * Further properties of the similarity methods and of the sentinel *)

Lemma first_other_all_same (self : MainRecommender) (item_id : Z)
    (recs : list (Z * float)) :
  Forall (λ rec, rec.1 = item_id) recs →
  first_other self item_id recs = Ok None.
Proof.
  induction 1 as [|rec recs Hrec _ IH]; [done|].
  simpl. rewrite bool_decide_eq_false_2; [done|].
  intros Hne. by apply Hne.
Qed.

Lemma first_other_Some (self : MainRecommender) (item_id : Z)
    (recs : list (Z * float)) (e : Z) :
  first_other self item_id recs = Ok (Some e) →
  ∃ rec, rec ∈ recs ∧ rec.1 ≠ item_id ∧
         id_to_itemid self !! KInt rec.1 = Some e.
Proof.
  induction recs as [|rec recs IH]; [done|].
  simpl. case_bool_decide as Hne.
  - intros Hfirst. exists rec. split; [apply list_elem_of_here|].
    split; [done|]. unfold res_bind, getitem in Hfirst.
    destruct (id_to_itemid self !! KInt rec.1); [|done].
    by injection Hfirst as ->.
  - intros Hfirst. destruct (IH Hfirst) as (rec' & Hin & Hrest).
    exists rec'. split; [by apply list_elem_of_further | done].
Qed.

(** The three ways [_get_similar_item] ends once it has its model: an
    item that is not in [itemid_to_id] gives [KeyError]; [None] comes
    back when every index the model lists (possibly none) is the same
    number as [item_id]; and an item that comes back is always the
    translation of an index the model listed. *)
Theorem similar_item_outcomes (self : MainRecommender) (model : Model)
    (item_id : Z) :
  model_attrs self !! "model" = Some model →
  (itemid_to_id self !! KInt item_id = None →
   _get_similar_item item_id self = (self, Raise KeyError)) ∧
  (∀ idx recs,
     itemid_to_id self !! KInt item_id = Some idx →
     similar_items model idx 2 = Ok recs →
     Forall (λ rec, rec.1 = item_id) recs →
     _get_similar_item item_id self = (self, Ok None)) ∧
  (∀ idx recs e,
     itemid_to_id self !! KInt item_id = Some idx →
     similar_items model idx 2 = Ok recs →
     _get_similar_item item_id self = (self, Ok (Some e)) →
     ∃ rec, rec ∈ recs ∧ rec.1 ≠ item_id ∧
            id_to_itemid self !! KInt rec.1 = Some e).
Proof.
  intros Hmodel. split; [|split].
  - intros Hnone. unfold _get_similar_item. run. rewrite Hmodel. simpl.
    unfold getitem. by rewrite Hnone.
  - intros idx recs Hidx Hsim Hall.
    unfold _get_similar_item. run. rewrite Hmodel. simpl.
    unfold getitem at 1. rewrite Hidx. simpl. rewrite Hsim. simpl.
    by rewrite first_other_all_same.
  - intros idx recs e Hidx Hsim.
    unfold _get_similar_item. run. rewrite Hmodel. simpl.
    unfold getitem at 1. rewrite Hidx. simpl. rewrite Hsim. simpl.
    intros [= Hfirst]. by apply first_other_Some.
Qed.

(** Item 77 is not sold at the shop. *)
Lemma similar_item_outcomes_witness :
  model_attrs shop_state !! "model" = Some shop_model ∧
  _get_similar_item 77 shop_state = (shop_state, Raise KeyError).
Proof.
  assert (model_attrs shop_state !! "model" = Some shop_model) as Hmodel
    by (vm_compute; reflexivity).
  split; [exact Hmodel|].
  apply (proj1 (similar_item_outcomes shop_state shop_model 77 Hmodel)).
  vm_compute. reflexivity.
Defined.

Lemma getattr_Ok (name : string) (self self' : MainRecommender)
    (model : Model) :
  getattr name self = (self', Ok model) →
  self' = self ∧ model_attrs self !! name = Some model.
Proof.
  unfold getattr. destruct (model_attrs self !! name); [|done].
  by intros [= <- ->].
Qed.

(** With integer keys only in [id_to_userid], the similar-users request
    pads the empty list. *)
Lemma similar_users_run (self : MainRecommender) (user N : Z) :
  inverse_tables (userid_to_id self) (id_to_userid self) →
  get_similar_users_recommendation user N self =
    (self,
     match model_attrs self !! "model" with
     | None => Raise AttributeError
     | Some model =>
         match userid_to_id self !! KInt user with
         | None => Raise KeyError
         | Some userid =>
             match similar_users model userid (N + 1) with
             | Raise e => Raise e
             | Ok _ =>
                 if bool_decide
                      (len (_extend_with_top_popular self [] N) = N)
                 then Ok (_extend_with_top_popular self [] N)
                 else Raise AssertionError
             end
         end
     end).
Proof.
  intros Husers.
  pose proof (λ sims, no_similar_user_kept (id_to_userid self) sims
                (λ s, inverse_tables_no_str_key _ _ s Husers)) as Hnone.
  unfold get_similar_users_recommendation. run.
  destruct (model_attrs self !! "model") as [model|]; [simpl|done].
  unfold getitem.
  destruct (userid_to_id self !! KInt user) as [userid|]; [simpl|done].
  destruct (similar_users model userid (N + 1)) as [sims|e]; [simpl|done].
  rewrite Hnone. simpl. by case_bool_decide.
Qed.

Lemma table_model_honours_filter_items ranking neighbours peers :
  honours_filter_items (table_model ranking neighbours peers).
Proof.
  intros userid user_items N liked filter_items recalculate ids scores.
  simpl. destruct (ranking userid) as [ranked|]; [|done].
  intros [= <- _] i Hi Hin%elem_of_slice_to.
  by apply list_elem_of_filter in Hin as [Hnot _].
Qed.

(** When every model the instance holds leaves the ids passed as
    [filter_items] out of what [recommend] returns, then after
    construction and any run of [_update_dict] calls no list returned by
    the five model wrappers or by the similar-users request holds the
    sentinel item. *)
Theorem library_filter_keeps_unknown_item_out lib data weighting
    (self : MainRecommender) (users : list Z) (r : request) (user N : Z)
    (l : list (option Z)) :
  __init__ lib data weighting = Ok self →
  (∀ name model, model_attrs self !! name = Some model →
                 honours_filter_items model) →
  r ≠ SimilarItems →
  (recommendation_request r user N (after_updates self users)).2 = Ok l →
  Some unknown_item ∉ l.
Proof.
  intros Hinit Hlib Hr Hrun.
  pose proof (after_updates_tables_bijective self users
                (init_tables_bijective _ _ _ _ Hinit)) as [Husers Hitems].
  pose proof (init_overall_excludes_unknown _ _ _ _ Hinit) as Hpop.
  destruct (after_updates_frame self users)
    as (_ & Hpop' & _ & _ & _ & Hattrs).
  set (s := after_updates self users) in *.
  rewrite <- Hpop' in Hpop. rewrite <- Hattrs in Hlib.
  assert (∀ name s',
            (_update_dict user;; model ← getattr name;
             _get_recommendations user model N) s = (s', Ok l) →
            Some unknown_item ∉ l) as Hwrapper.
  { intros name s' Hw.
    apply bind_Ok in Hw as ([] & s0 & Hupd & Hw).
    apply bind_Ok in Hw as (model & s1 & [-> Hattr]%getattr_Ok & Hw).
    pose proof (update_dict_frame s user) as Hframe.
    rewrite Hupd in Hframe.
    destruct Hframe as (_ & Hp & _ & Hid & Hitem & Hm). simpl in *.
    eapply get_recommendations_excludes_unknown; [| | |exact Hw].
    - apply (Hlib name). by rewrite <- Hm.
    - by rewrite Hid, Hitem.
    - by rewrite Hp. }
  destruct r; simpl in Hrun; try done;
    try (match type of Hrun with
         | (?c).2 = _ =>
             destruct c as [s' res] eqn:Hw; simpl in Hrun; subst res;
             exact (Hwrapper _ _ Hw)
         end).
  rewrite (similar_users_run s user N Husers) in Hrun. simpl in Hrun.
  destruct (model_attrs s !! "model") as [model|]; [|done].
  destruct (userid_to_id s !! KInt user) as [userid|]; [|done].
  destruct (similar_users model userid (N + 1)) as [sims|e]; [|done].
  case_bool_decide; [|done]. injection Hrun as <-.
  intros Hin.
  apply elem_of_extend in Hin as [Hin|(i & [= <-] & Hi)]; [|done].
  by apply elem_of_nil in Hin.
Qed.

Lemma shop_models_honour_filter_items (name : string) (model : Model) :
  model_attrs shop_state !! name = Some model → honours_filter_items model.
Proof.
  unfold shop_state. simpl. intros Hattr.
  repeat (rewrite lookup_insert in Hattr; case_decide;
          [injection Hattr as <-; apply table_model_honours_filter_items|]).
  by rewrite lookup_empty in Hattr.
Qed.

(** User 2 of the shop, whose model ranks the sentinel third. *)
Lemma library_filter_keeps_unknown_item_out_witness :
  __init__ (table_library shop_model) shop_data false = Ok shop_state ∧
  (recommendation_request Cosine 2 3 (after_updates shop_state [])).2
    = Ok [Some 20; Some 10; Some 10] ∧
  (Some unknown_item ∉ [Some 20; Some 10; Some 10]).
Proof.
  assert (__init__ (table_library shop_model) shop_data false = Ok shop_state)
    as Hinit by (vm_compute; reflexivity).
  assert ((recommendation_request Cosine 2 3 (after_updates shop_state [])).2
          = Ok [Some 20; Some 10; Some 10]) as Hrun
    by (vm_compute; reflexivity).
  split; [exact Hinit|]. split; [exact Hrun|].
  refine (library_filter_keeps_unknown_item_out _ _ _ shop_state [] Cosine
            2 3 _ Hinit shop_models_honour_filter_items _ Hrun).
  discriminate.
Defined.

(** When the model returns exactly [N] ids, [_get_recommendations]
    returns their translations as they are: the popularity list is not
    consulted and nothing is reordered. *)
Theorem full_result_is_returned_as_is (self self' : MainRecommender)
    (user : Z) (model : Model) (N userid unknown : Z)
    (ids : list Z) (scores : list float) (ext : list Z) :
  _update_dict user self = (self', Ok tt) →
  userid_to_id self' !! KInt user = Some userid →
  itemid_to_id self !! KInt unknown_item = Some unknown →
  recommend model userid (csr_matrix (user_item_matrix self)) N false
    [unknown] false = Ok (ids, scores) →
  res_map (λ rec, getitem (id_to_itemid self) (KInt rec)) ids = Ok ext →
  len ids = N →
  _get_recommendations user model N self = (self', Ok (Some <$> ext)).
Proof.
  intros Hupd Huser Hunknown Hrec Hext Hfull.
  assert (len ext = len ids) as Hlen.
  { apply res_map_Ok in Hext. unfold len.
    by rewrite (Forall2_length _ _ _ Hext). }
  rewrite (get_recommendations_run _ _ _ _ _ _ _ _ _ _
             Hupd Huser Hunknown Hrec Hext), assert_len_run.
  rewrite extend_long by (rewrite len_fmap; lia).
  rewrite bool_decide_eq_true_2; [done|]. rewrite len_fmap. lia.
Qed.

(** User 2 of the shop, two recommendations: the model gives two. *)
Lemma full_result_is_returned_as_is_witness :
  _update_dict 2 shop_state = (shop_state, Ok tt) ∧
  _get_recommendations 2 shop_model 2 shop_state
    = (shop_state, Ok [Some 20; Some 10]).
Proof.
  assert (_update_dict 2 shop_state = (shop_state, Ok tt)) as Hupd
    by (vm_compute; reflexivity).
  split; [exact Hupd|].
  refine (full_result_is_returned_as_is shop_state shop_state 2 shop_model
            2 1 2 [1; 0] [one; one] [20; 10] Hupd _ _ _ _ _).
  - vm_compute. reflexivity.
  - vm_compute. reflexivity.
  - vm_compute. reflexivity.
  - vm_compute. reflexivity.
  - vm_compute. reflexivity.
Defined.
